(** * ARM Cortex-M bootup handling (src/generic/armcm_boot.c)

    A shallow embedding of the reset sequence: the word-granular copy and
    fill primitives, the two reset stages, the default handler and the
    dynamic-memory accessors, together with the properties the
    specification states about them. *)

From Stdlib Require Import ZArith List Lia Bool.
Import ListNotations.
Local Open Scope Z_scope.

(** ** 32-bit machine words

    [uint32_t], [size_t] and pointers are 32 bits wide on Cortex-M; they
    are integers of [Z] with the wrap-around written out. *)
Module Word32.

Definition modulus : Z := 4294967296.

Definition wrap (x : Z) : Z := x mod modulus.

(** [~x] on a [uint32_t]. *)
Definition not32 (x : Z) : Z := wrap (Z.lnot x).

(** [(&stop - &start) * 4] for two [uint32_t] objects, as a [uint32_t].
    The pointer difference is the byte distance divided by the size of
    the element, a division that is exact for two pointers into one
    array of words; multiplied back by 4 it is the byte distance, and that
    is what the compiled code passes on. *)
Definition byte_distance (stop start : Z) : Z := wrap (stop - start).

(** Byte [k] of a word, little endian. *)
Definition byte_of (v k : Z) : Z := (v / 2 ^ (8 * k)) mod 256.

End Word32.
Import Word32.

(** ** Byte-addressed memory, little endian *)

Definition mem : Type := Z -> Z.

Definition read8 (m : mem) (a : Z) : Z := m (wrap a) mod 256.

Definition write8 (m : mem) (a v : Z) : mem :=
  fun x => if x =? wrap a then v mod 256 else m x.

Definition load32 (m : mem) (a : Z) : Z :=
  read8 m a + 2 ^ 8 * read8 m (a + 1) + 2 ^ 16 * read8 m (a + 2)
  + 2 ^ 24 * read8 m (a + 3).

Definition store32 (m : mem) (a v : Z) : mem :=
  write8 (write8 (write8 (write8 m a (byte_of v 0)) (a + 1) (byte_of v 1))
            (a + 2) (byte_of v 2)) (a + 3) (byte_of v 3).

(** [a] lies among the [n] bytes that start at [base] (addresses wrap). *)
Definition in_range (base n a : Z) : Prop := wrap (a - base) < n.

(** ** Memory-mapped registers, events, machine state *)

Inductive reg : Type :=
| NVIC_ICER (i : nat)
| NVIC_ICPR (i : nat)
| NVIC_IP (i : nat)
| NVIC_IPR (i : nat)
| SysTick_CTRL
| SCB_ICSR
| SCB_SHP (i : nat)
| SCB_SHPR (i : nat)
| IWDG_KR
| RCC_BDCR
| SYSCFG_CFGR1.

Definition reg_eq_dec (r r' : reg) : {r = r'} + {r <> r'}.
Proof. decide equality; apply Nat.eq_dec. Defined.

Definition reg_eqb (r r' : reg) : bool :=
  if reg_eq_dec r r' then true else false.

Inductive code_label : Type :=
| lbl_reset_handler_stage_two
| lbl_armcm_main.

Inductive event : Type :=
| EvRegRead (r : reg) (v : Z)
| EvRegWrite (r : reg) (v : Z)
| EvLoad (a : Z)
| EvStore (a v : Z)
| EvDSB
| EvISB
| EvBarrier
| EvCpsidI
| EvCpsieI
| EvCpsidF
| EvCpsieF
| EvSetSP (v : Z)
| EvBx (l : code_label)
| EvCall (l : code_label).

(** The machine.  [regs] holds, for each register, the value the code
    wrote to it last (what it held at reset if none).  What a register
    read returns is up to the device: [device k r] is the answer to a read
    of [r] when it is the [k]-th register read since reset, and [reads]
    counts the reads made so far.  [iwdg_running] is whether the
    independent watchdog is counting down: hardware state the code has no
    other view of than what its registers answer. *)
Record machine : Type := mkMachine {
  memory : mem;
  regs : reg -> Z;
  sp : Z;
  primask : bool;
  faultmask : bool;
  device : nat -> reg -> Z;
  reads : nat;
  iwdg_running : bool
}.

Definition set_memory (s : machine) (m : mem) : machine :=
  mkMachine m (regs s) (sp s) (primask s) (faultmask s)
            (device s) (reads s) (iwdg_running s).

Definition set_reg (s : machine) (r : reg) (v : Z) : machine :=
  mkMachine (memory s) (fun x => if reg_eqb x r then v else regs s x)
            (sp s) (primask s) (faultmask s)
            (device s) (reads s) (iwdg_running s).

Definition set_sp (s : machine) (v : Z) : machine :=
  mkMachine (memory s) (regs s) v (primask s) (faultmask s)
            (device s) (reads s) (iwdg_running s).

Definition set_primask (s : machine) (b : bool) : machine :=
  mkMachine (memory s) (regs s) (sp s) b (faultmask s)
            (device s) (reads s) (iwdg_running s).

Definition set_faultmask (s : machine) (b : bool) : machine :=
  mkMachine (memory s) (regs s) (sp s) (primask s) b
            (device s) (reads s) (iwdg_running s).

Definition count_read (s : machine) : machine :=
  mkMachine (memory s) (regs s) (sp s) (primask s) (faultmask s)
            (device s) (S (reads s)) (iwdg_running s).

(** What the device answers to the [k]-th register read from now on, if
    it is a read of [r]. *)
Definition nth_read (s : machine) (k : nat) (r : reg) : Z :=
  wrap (device s (k + reads s) r).

(** ** The monad of boot code

    A piece of code maps the machine to how control leaves it, the machine
    then, and the events it has emitted, oldest first.  [Done] falls
    through to the next statement; [Jumped] is a branch without link;
    [Halted] is the empty infinite loop; [OutOfFuel] is a loop that has
    not finished within the iterations granted. *)

Inductive result (A : Type) : Type :=
| Done (a : A) (s : machine) (t : list event)
| Jumped (l : code_label) (s : machine) (t : list event)
| Halted (s : machine) (t : list event)
| OutOfFuel (s : machine) (t : list event).
Arguments Done {A} a s t.
Arguments Jumped {A} l s t.
Arguments Halted {A} s t.
Arguments OutOfFuel {A} s t.

Definition M (A : Type) : Type := machine -> result A.

Definition trace_of {A} (r : result A) : list event :=
  match r with
  | Done _ _ t | Jumped _ _ t | Halted _ t | OutOfFuel _ t => t
  end.

Definition state_of {A} (r : result A) : machine :=
  match r with
  | Done _ s _ | Jumped _ s _ | Halted s _ | OutOfFuel s _ => s
  end.

Definition is_done {A} (r : result A) : bool :=
  match r with Done _ _ _ => true | _ => false end.

Definition prepend {A} (t0 : list event) (r : result A) : result A :=
  match r with
  | Done a s t => Done a s (t0 ++ t)
  | Jumped l s t => Jumped l s (t0 ++ t)
  | Halted s t => Halted s (t0 ++ t)
  | OutOfFuel s t => OutOfFuel s (t0 ++ t)
  end.

Definition ret {A} (a : A) : M A := fun s => Done a s [].

Definition bind {A B} (c : M A) (k : A -> M B) : M B :=
  fun s =>
    match c s with
    | Done a s1 t1 => prepend t1 (k a s1)
    | Jumped l s1 t1 => Jumped l s1 t1
    | Halted s1 t1 => Halted s1 t1
    | OutOfFuel s1 t1 => OutOfFuel s1 t1
    end.

Declare Scope boot_scope.
Delimit Scope boot_scope with boot.
Notation "x <- c1 ;; c2" := (bind c1 (fun x => c2))
  (at level 61, c1 at next level, right associativity) : boot_scope.
Notation "c1 ;; c2" := (bind c1 (fun _ => c2))
  (at level 61, right associativity) : boot_scope.
Local Open Scope boot_scope.

(** Volatile register accesses. *)
Definition reg_read (r : reg) : M Z :=
  fun s => Done (nth_read s 0 r) (count_read s) [EvRegRead r (nth_read s 0 r)].

Definition reg_write (r : reg) (v : Z) : M unit :=
  fun s => Done tt (set_reg s r (wrap v)) [EvRegWrite r (wrap v)].

(** Word accesses to memory. *)
Definition mem_load32 (a : Z) : M Z :=
  fun s => Done (load32 (memory s) a) s [EvLoad (wrap a)].

Definition mem_store32 (a v : Z) : M unit :=
  fun s => Done tt (set_memory s (store32 (memory s) a (wrap v)))
                [EvStore (wrap a) (wrap v)].

(** Core instructions and barriers. *)
Definition dsb : M unit := fun s => Done tt s [EvDSB].
Definition isb : M unit := fun s => Done tt s [EvISB].
Definition barrier : M unit := fun s => Done tt s [EvBarrier].
Definition cpsid_i : M unit := fun s => Done tt (set_primask s true) [EvCpsidI].
Definition cpsie_i : M unit := fun s => Done tt (set_primask s false) [EvCpsieI].
Definition cpsid_f : M unit := fun s => Done tt (set_faultmask s true) [EvCpsidF].
Definition cpsie_f : M unit := fun s => Done tt (set_faultmask s false) [EvCpsieF].
Definition disable_irq : M unit := cpsid_i.
Definition enable_irq : M unit := cpsie_i.
Definition mov_sp (v : Z) : M unit := fun s => Done tt (set_sp s v) [EvSetSP v].
Definition bx (l : code_label) : M unit := fun s => Jumped l s [EvBx l].
Definition loop_forever {A} : M A := fun s => Halted s [].

(** [for (i = i0; i < i0 + k; i++) body(i)]. *)
Fixpoint for_range (i0 k : nat) (body : nat -> M unit) : M unit :=
  match k with
  | O => ret tt
  | S k' => body i0 ;; for_range (S i0) k' body
  end.

(** [__builtin_memcpy]: the compiler's copy of [n] bytes; its contract is
    that of the C library for ranges that do not overlap. *)
Definition copy_bytes (m : mem) (dest src n : Z) : mem :=
  fun x => if wrap (x - dest) <? n then read8 m (src + wrap (x - dest)) else m x.

Definition builtin_memcpy (dest src n : Z) : M unit :=
  fun s => Done tt (set_memory s (copy_bytes (memory s) dest src n)) [].

(** ** Basic interrupt handlers *)

(** [boot_memset]: [while (n) { *p++ = c; n -= sizeof( *p); }]. *)
Fixpoint boot_memset_loop (fuel : nat) (p c n : Z) : M unit :=
  fun s =>
    if n =? 0 then Done tt s []
    else
      match fuel with
      | O => OutOfFuel s []
      | S fuel' =>
          (mem_store32 p c ;;
           boot_memset_loop fuel' (wrap (p + 4)) c (wrap (n - 4))) s
      end.

Definition boot_memset (fuel : nat) (s c n : Z) : M unit :=
  boot_memset_loop fuel s c n.

(** [boot_memcpy]: [while (n) { *d++ = *s++; n -= sizeof( *d); }]. *)
Fixpoint boot_memcpy_loop (fuel : nat) (d s n : Z) : M unit :=
  fun st =>
    if n =? 0 then Done tt st []
    else
      match fuel with
      | O => OutOfFuel st []
      | S fuel' =>
          (v <- mem_load32 s ;;
           mem_store32 d v ;;
           boot_memcpy_loop fuel' (wrap (d + 4)) (wrap (s + 4)) (wrap (n - 4))) st
      end.

Definition boot_memcpy (fuel : nat) (dest src n : Z) : M unit :=
  boot_memcpy_loop fuel dest src n.

(** The counter of either loop after [k] iterations. *)
Definition counter_after (n : Z) (k : nat) : Z :=
  Nat.iter k (fun x => wrap (x - 4)) n.

(** ** Symbols and constants that come from outside the file *)

(** Symbols created by the linker script [armcm_link.lds.S]: each field is
    the address of the symbol. *)
Record linker_symbols : Type := mkSymbols {
  _data_start : Z;
  _data_end : Z;
  _data_flash : Z;
  _bss_start : Z;
  _bss_end : Z;
  _stack_start : Z;
  _stack_end : Z;
  _text_vectortable_start : Z;
  _text_vectortable_end : Z;
  _ram_vectortable_start : Z
}.

(** Build configuration and the constants of the board support headers
    ([autoconf.h], [board/internal.h], [stm32/internal.h]), which the file
    includes and does not define. *)
Record board_support : Type := mkBoard {
  CONFIG_ARMCM_RAM_VECTORTABLE : bool;
  CORTEX_M : Z;
  NVIC_ICER_size : nat;          (* ARRAY_SIZE(NVIC->ICER) *)
  NVIC_IP_size : nat;            (* ARRAY_SIZE(NVIC->IP), or of NVIC->IPR *)
  SCB_SHP_size : nat;            (* ARRAY_SIZE(SCB->SHP), or of SCB->SHPR *)
  SysTick_CTRL_ENABLE_Msk : Z;
  SysTick_CTRL_TICKINT_Msk : Z;
  SysTick_CTRL_CLKSOURCE_Msk : Z;
  SCB_ICSR_PENDSVCLR_Msk : Z;
  SCB_ICSR_PENDSTCLR_Msk : Z;
  RCC_BDCR_BDRST : Z;
  SYSCFG_CFGR1_MEM_MODE_0 : Z;
  SYSCFG_CFGR1_MEM_MODE_1 : Z
}.

Section Boot.

Variable L : linker_symbols.
Variable B : board_support.

(** The board specific main code, [armcm_main()]. *)
Variable armcm_main : M unit.

(** *** Stage two: main initialization code *)

(** Lines 63 to 97 of [reset_handler_stage_two]: clear all enabled user
    interrupts and user pending interrupts, reset all user interrupt
    priorities, disable the SysTick interrupt, clear pending pendsv and
    systick interrupts, reset all system interrupt priorities, enable
    interrupts. *)
Definition stage_two_reset_irqs : M unit :=
  for_range 0 (NVIC_ICER_size B) (fun i =>
    reg_write (NVIC_ICER i) 0xFFFFFFFF ;;
    dsb ;;
    reg_write (NVIC_ICPR i) 0xFFFFFFFF) ;;
  (if CORTEX_M B =? 33
   then for_range 0 (NVIC_IP_size B) (fun i => reg_write (NVIC_IPR i) 0)
   else for_range 0 (NVIC_IP_size B) (fun i => reg_write (NVIC_IP i) 0)) ;;
  reg_write SysTick_CTRL (SysTick_CTRL_CLKSOURCE_Msk B) ;;
  dsb ;;
  reg_write SCB_ICSR
    (Z.lor (SCB_ICSR_PENDSVCLR_Msk B) (SCB_ICSR_PENDSTCLR_Msk B)) ;;
  (if (CORTEX_M B =? 7) || (CORTEX_M B =? 33)
   then for_range 0 (SCB_SHP_size B) (fun i => reg_write (SCB_SHPR i) 0)
   else for_range 0 (SCB_SHP_size B) (fun i => reg_write (SCB_SHP i) 0)) ;;
  dsb ;;
  isb ;;
  enable_irq.

(** [uint32_t count = (&_data_end - &_data_start) * 4;] *)
Definition data_count : Z :=
  byte_distance (_data_end L) (_data_start L).

(** Lines 99 to 101: copy global variables from flash to ram. *)
Definition stage_two_copy_data (fuel : nat) : M unit :=
  boot_memcpy fuel (_data_start L) (_data_flash L) data_count.

Definition bss_count : Z :=
  byte_distance (_bss_end L) (_bss_start L).

(** Lines 103 and 104: clear the bss segment. *)
Definition stage_two_clear_bss (fuel : nat) : M unit :=
  boot_memset fuel (_bss_start L) 0 bss_count.

(** Run the main board specific code. *)
Definition call_armcm_main : M unit :=
  fun s => prepend [EvCall lbl_armcm_main] (armcm_main s).

Definition reset_handler_stage_two (fuel : nat) : M unit :=
  stage_two_reset_irqs ;;
  stage_two_copy_data fuel ;;
  stage_two_clear_bss fuel ;;
  barrier ;;
  call_armcm_main ;;
  loop_forever.

(** *** Stage one: the entry point after a reset *)

Definition vectortable_count : Z :=
  byte_distance (_text_vectortable_end L) (_text_vectortable_start L).

(** Lines 126 to 158 of [ResetHandler], the block under
    [#if CONFIG_ARMCM_RAM_VECTORTABLE]. *)
Definition relocate_vectortable : M unit :=
  v <- reg_read SysTick_CTRL ;;
  reg_write SysTick_CTRL
    (Z.land v (not32 (Z.lor (SysTick_CTRL_TICKINT_Msk B)
                            (SysTick_CTRL_ENABLE_Msk B)))) ;;
  kr <- reg_read IWDG_KR ;;
  (if kr =? 0 then ret tt else reg_write IWDG_KR 0x0000AAAA) ;;
  cpsid_i ;;
  cpsid_f ;;
  b <- reg_read RCC_BDCR ;;
  reg_write RCC_BDCR (Z.lor b (RCC_BDCR_BDRST B)) ;;
  b <- reg_read RCC_BDCR ;;
  reg_write RCC_BDCR (Z.land b (not32 (RCC_BDCR_BDRST B))) ;;
  mov_sp (_stack_end L) ;;
  builtin_memcpy (_ram_vectortable_start L) (_text_vectortable_start L)
                 vectortable_count ;;
  c <- reg_read SYSCFG_CFGR1 ;;
  reg_write SYSCFG_CFGR1
    (Z.land c (not32 (Z.lor (SYSCFG_CFGR1_MEM_MODE_0 B)
                            (SYSCFG_CFGR1_MEM_MODE_1 B)))) ;;
  c <- reg_read SYSCFG_CFGR1 ;;
  reg_write SYSCFG_CFGR1
    (Z.lor c (Z.lor (SYSCFG_CFGR1_MEM_MODE_0 B) (SYSCFG_CFGR1_MEM_MODE_1 B))) ;;
  cpsie_i ;;
  cpsie_f.

Definition ResetHandler : M unit :=
  disable_irq ;;
  (if CONFIG_ARMCM_RAM_VECTORTABLE B then relocate_vectortable else ret tt) ;;
  mov_sp (_stack_end L) ;;
  bx lbl_reset_handler_stage_two.

(** The whole reset sequence: stage one, and stage two where the branch
    of stage one leads. *)
Definition boot (fuel : nat) : M unit :=
  fun s =>
    match ResetHandler s with
    | Jumped lbl_reset_handler_stage_two s1 t1 =>
        prepend t1 (reset_handler_stage_two fuel s1)
    | r => r
    end.

(** Code called for any undefined interrupts. *)
Definition DefaultHandler : M unit := loop_forever.

(** *** Dynamic memory range *)

Definition dynmem_start : M Z := ret (_bss_end L).

Definition dynmem_end : M Z := ret (_stack_start L).

End Boot.

(** A concrete board: a Cortex-M0 STM32F0 with the vector table in RAM. *)
Definition stm32f0 : board_support := {|
  CONFIG_ARMCM_RAM_VECTORTABLE := true;
  CORTEX_M := 0;
  NVIC_ICER_size := 1;
  NVIC_IP_size := 8;
  SCB_SHP_size := 2;
  SysTick_CTRL_ENABLE_Msk := 0x1;
  SysTick_CTRL_TICKINT_Msk := 0x2;
  SysTick_CTRL_CLKSOURCE_Msk := 0x4;
  SCB_ICSR_PENDSVCLR_Msk := 0x08000000;
  SCB_ICSR_PENDSTCLR_Msk := 0x02000000;
  RCC_BDCR_BDRST := 0x00010000;
  SYSCFG_CFGR1_MEM_MODE_0 := 0x1;
  SYSCFG_CFGR1_MEM_MODE_1 := 0x2
|}.

(** A small layout: two words of data, two words of bss, a table of two
    vectors. *)
Definition sample_symbols : linker_symbols := {|
  _data_start := 0x20000100;
  _data_end := 0x20000108;
  _data_flash := 0x08002000;
  _bss_start := 0x20000108;
  _bss_end := 0x20000110;
  _stack_start := 0x20001000;
  _stack_end := 0x20002000;
  _text_vectortable_start := 0x08000000;
  _text_vectortable_end := 0x08000008;
  _ram_vectortable_start := 0x20000000
|}.

(** ** Reference: the byte-wise fill of the C library

    [memset(s, c, n)] sets each of the [n] bytes at [s] to [c] converted
    to [unsigned char]. *)
Definition memset_bytes (m : mem) (s c n : Z) : mem :=
  fun x => if wrap (x - s) <? n then c mod 256 else m x.

(** The four bytes of [c] as a 32-bit word are the same byte. *)
Definition all_bytes_equal (c : Z) : bool :=
  (byte_of (wrap c) 1 =? byte_of (wrap c) 0)
  && (byte_of (wrap c) 2 =? byte_of (wrap c) 0)
  && (byte_of (wrap c) 3 =? byte_of (wrap c) 0).

(** ** The linker layout the code relies on *)

Definition is_address (a : Z) : Prop := 0 <= a < modulus.

Definition aligned4 (a : Z) : Prop := a mod 4 = 0.

(** A word-aligned region [[start, stop)] of the address space. *)
Definition word_region (start stop : Z) : Prop :=
  is_address start /\ is_address stop /\ start <= stop /\
  aligned4 start /\ aligned4 stop.

(** The [len] bytes at [a] and the [len] bytes at [b] lie in the address
    space and apart from each other. *)
Definition regions_apart (a b len : Z) : Prop :=
  a + len <= modulus /\ b + len <= modulus /\ (a + len <= b \/ b + len <= a).

(** Initialized data: a RAM region and its image in flash. *)
Definition valid_data_layout (L : linker_symbols) : Prop :=
  word_region (_data_start L) (_data_end L) /\
  is_address (_data_flash L) /\ aligned4 (_data_flash L) /\
  regions_apart (_data_start L) (_data_flash L) (_data_end L - _data_start L).

Definition valid_bss_layout (L : linker_symbols) : Prop :=
  word_region (_bss_start L) (_bss_end L).

(** The vector table in flash and the place for it in RAM. *)
Definition valid_vectortable_layout (L : linker_symbols) : Prop :=
  word_region (_text_vectortable_start L) (_text_vectortable_end L) /\
  is_address (_ram_vectortable_start L) /\ aligned4 (_ram_vectortable_start L) /\
  regions_apart (_ram_vectortable_start L) (_text_vectortable_start L)
                (_text_vectortable_end L - _text_vectortable_start L).

(** Word-aligned regions, with the bss end not above the stack start. *)
Definition valid_layout (L : linker_symbols) : Prop :=
  valid_data_layout L /\ valid_bss_layout L /\
  word_region (_stack_start L) (_stack_end L) /\
  _bss_end L <= _stack_start L.

(** A 32-bit constant of the board support headers. *)
Definition is_mask (m : Z) : Prop := 0 <= m < modulus.

(** Code that runs to its end on every machine and leaves memory alone. *)
Definition keeps_memory {A} (c : M A) : Prop :=
  forall s, exists a s' t, c s = Done a s' t /\ memory s' = memory s.

(** The events of clearing group [i] of the interrupt controller. *)
Definition clear_group_events (i : nat) : list event :=
  [EvRegWrite (NVIC_ICER i) 0xFFFFFFFF; EvDSB;
   EvRegWrite (NVIC_ICPR i) 0xFFFFFFFF].

Definition writes_to (r : reg) (t : list event) : Prop :=
  exists v, In (EvRegWrite r v) t.

(** A machine whose byte at address [x] is [x mod 251], with all registers
    zero, a device that answers zero to every read, and no watchdog
    running. *)
Definition sample_machine : machine := {|
  memory := fun x => x mod 251;
  regs := fun _ => 0;
  sp := 0;
  primask := false;
  faultmask := false;
  device := fun _ _ => 0;
  reads := 0;
  iwdg_running := false
|}.

(** A machine with the watchdog running, on which the watchdog key
    register reads non-zero. *)
Definition watchdog_machine : machine := {|
  memory := fun x => x mod 251;
  regs := fun _ => 0;
  sp := 0;
  primask := false;
  faultmask := false;
  device := fun _ r => if reg_eqb r IWDG_KR then 0x0000CCCC else 0;
  reads := 0;
  iwdg_running := true
|}.



(** ** Events and ranges of the copy and fill loops *)

Definition is_store (e : event) : bool :=
  match e with EvStore _ _ => true | _ => false end.

Definition is_load (e : event) : bool :=
  match e with EvLoad _ => true | _ => false end.

Definition count_stores (t : list event) : nat := length (filter is_store t).

Definition count_loads (t : list event) : nat := length (filter is_load t).

(** No byte of the [n] at [d] is a byte of the [n] at [s]. *)
Definition ranges_disjoint (d s n : Z) : Prop :=
  forall i j, 0 <= i < n -> 0 <= j < n -> wrap (d + i) <> wrap (s + j).

(** A layout whose data region is six bytes long, not a whole number of
    words. *)
Definition partial_word_symbols : linker_symbols := {|
  _data_start := 0x20000100;
  _data_end := 0x20000106;
  _data_flash := 0x08002000;
  _bss_start := 0x20000108;
  _bss_end := 0x20000110;
  _stack_start := 0x20001000;
  _stack_end := 0x20002000;
  _text_vectortable_start := 0x08000000;
  _text_vectortable_end := 0x08000008;
  _ram_vectortable_start := 0x20000000
|}.

(** A word access to memory. *)
Definition is_mem_access (e : event) : bool := is_load e || is_store e.

(** A word access to memory or the compiler barrier. *)
Definition is_mem_access_or_barrier (e : event) : bool :=
  match e with EvLoad _ | EvStore _ _ | EvBarrier => true | _ => false end.

(** Unfolding of straight-line boot code. *)
Ltac run_boot_code :=
  cbv beta iota delta
    [bind reg_read reg_write ret prepend cpsid_i cpsid_f cpsie_i cpsie_f
     disable_irq enable_irq mov_sp bx builtin_memcpy set_reg set_sp
     set_memory set_primask set_faultmask count_read nth_read Nat.add
     regs sp memory primask faultmask device reads iwdg_running app].

(** ** Straight-line register code

    The register part of stage two is a sequence of register writes,
    barriers and one interrupt enable; [straight c ops] says that the code
    [c] performs the operations [ops], in this order, on every machine. *)

Inductive op : Type :=
| OpWrite (r : reg) (v : Z)
| OpDSB
| OpISB
| OpCpsieI.

Definition run_op (s : machine) (o : op) : machine :=
  match o with
  | OpWrite r v => set_reg s r (wrap v)
  | OpDSB | OpISB => s
  | OpCpsieI => set_primask s false
  end.

Definition op_event (o : op) : event :=
  match o with
  | OpWrite r v => EvRegWrite r (wrap v)
  | OpDSB => EvDSB
  | OpISB => EvISB
  | OpCpsieI => EvCpsieI
  end.

Definition run_ops (ops : list op) (s : machine) : machine :=
  fold_left run_op ops s.

Definition straight (c : M unit) (ops : list op) : Prop :=
  forall s, c s = Done tt (run_ops ops s) (map op_event ops).

(** The user interrupt priority registers of the core: [NVIC->IPR] on a
    Cortex-M33, [NVIC->IP] otherwise. *)
Definition user_prio_reg (B : board_support) (i : nat) : reg :=
  if CORTEX_M B =? 33 then NVIC_IPR i else NVIC_IP i.

(** The system handler priority registers: [SCB->SHPR] on a Cortex-M7 or
    Cortex-M33, [SCB->SHP] otherwise. *)
Definition system_prio_reg (B : board_support) (i : nat) : reg :=
  if (CORTEX_M B =? 7) || (CORTEX_M B =? 33) then SCB_SHPR i else SCB_SHP i.

(** The operations of lines 63 to 97 of [reset_handler_stage_two]. *)
Definition stage_two_reset_ops (B : board_support) : list op :=
  flat_map (fun i => [OpWrite (NVIC_ICER i) 0xFFFFFFFF; OpDSB;
                      OpWrite (NVIC_ICPR i) 0xFFFFFFFF])
           (seq 0 (NVIC_ICER_size B))
  ++ flat_map (fun i => [OpWrite (user_prio_reg B i) 0])
              (seq 0 (NVIC_IP_size B))
  ++ [OpWrite SysTick_CTRL (SysTick_CTRL_CLKSOURCE_Msk B)]
  ++ [OpDSB]
  ++ [OpWrite SCB_ICSR
        (Z.lor (SCB_ICSR_PENDSVCLR_Msk B) (SCB_ICSR_PENDSTCLR_Msk B))]
  ++ flat_map (fun i => [OpWrite (system_prio_reg B i) 0])
              (seq 0 (SCB_SHP_size B))
  ++ [OpDSB] ++ [OpISB] ++ [OpCpsieI].

(** A register write or a data synchronization barrier. *)
Definition is_reg_write_or_dsb (e : event) : bool :=
  match e with EvRegWrite _ _ | EvDSB => true | _ => false end.

(** The [la] bytes at [a] and the [lb] bytes at [b] share no byte. *)
Definition apart (a la b lb : Z) : Prop := a + la <= b \/ b + lb <= a.

(** The RAM layout the application relies on: valid data and bss, with the
    bss clear of the data and of the flash image of the data. *)
Definition valid_ram_layout (L : linker_symbols) : Prop :=
  valid_data_layout L /\ valid_bss_layout L /\
  apart (_bss_start L) (_bss_end L - _bss_start L)
        (_data_start L) (_data_end L - _data_start L) /\
  apart (_bss_start L) (_bss_end L - _bss_start L)
        (_data_flash L) (_data_end L - _data_start L).

(** * Properties *)

(** ** Words and memory *)

Lemma wrap_range (x : Z) : 0 <= wrap x < modulus.
Proof. unfold wrap, modulus. apply Z.mod_pos_bound. lia. Qed.

Lemma wrap_small (x : Z) : 0 <= x < modulus -> wrap x = x.
Proof. intros H. unfold wrap. apply Z.mod_small. exact H. Qed.

Lemma wrap_offset (a p k : Z) :
  0 <= k < modulus -> (wrap a = wrap (p + k) <-> wrap (a - p) = k).
Proof.
  unfold wrap, modulus. intros Hk.
  split; intros H; Z.div_mod_to_equations; lia.
Qed.

Lemma wrap_sub_next (a p : Z) :
  wrap (a - wrap (p + 4)) = wrap (wrap (a - p) - 4).
Proof. unfold wrap, modulus. Z.div_mod_to_equations. lia. Qed.

Lemma wrap_mod4 (x : Z) : wrap x mod 4 = x mod 4.
Proof. unfold wrap, modulus. Z.div_mod_to_equations. lia. Qed.

Lemma byte_of_range (v k : Z) : 0 <= byte_of v k < 256.
Proof. unfold byte_of. apply Z.mod_pos_bound. lia. Qed.

Lemma read8_range (m : mem) (a : Z) : 0 <= read8 m a < 256.
Proof. unfold read8. apply Z.mod_pos_bound. lia. Qed.

Lemma read8_wrap (m : mem) (a : Z) : read8 m (wrap a) = read8 m a.
Proof.
  unfold read8. f_equal. f_equal. unfold wrap. apply Z.mod_mod.
  unfold modulus. lia.
Qed.

Lemma read8_write8 (m : mem) (a v x : Z) :
  read8 (write8 m a v) x = if wrap x =? wrap a then v mod 256 else read8 m x.
Proof.
  unfold read8, write8. destruct (wrap x =? wrap a); [|reflexivity].
  apply Z.mod_mod. lia.
Qed.

Lemma read8_store32 (m : mem) (p v a : Z) :
  read8 (store32 m p v) a =
  if wrap (a - p) <? 4 then byte_of v (wrap (a - p)) else read8 m a.
Proof.
  unfold store32. rewrite !read8_write8.
  pose proof (wrap_range (a - p)) as Hr.
  pose proof (wrap_offset a p 0) as H0. rewrite Z.add_0_r in H0.
  pose proof (wrap_offset a p 1) as H1.
  pose proof (wrap_offset a p 2) as H2.
  pose proof (wrap_offset a p 3) as H3.
  unfold modulus in *.
  destruct (Z.eqb_spec (wrap a) (wrap (p + 3))) as [E3|E3].
  { assert (E : wrap (a - p) = 3) by (apply H3; [lia|exact E3]).
    rewrite E. simpl. apply Z.mod_small. apply byte_of_range. }
  destruct (Z.eqb_spec (wrap a) (wrap (p + 2))) as [E2|E2].
  { assert (E : wrap (a - p) = 2) by (apply H2; [lia|exact E2]).
    rewrite E. simpl. apply Z.mod_small. apply byte_of_range. }
  destruct (Z.eqb_spec (wrap a) (wrap (p + 1))) as [E1|E1].
  { assert (E : wrap (a - p) = 1) by (apply H1; [lia|exact E1]).
    rewrite E. simpl. apply Z.mod_small. apply byte_of_range. }
  destruct (Z.eqb_spec (wrap a) (wrap p)) as [E0|E0].
  { assert (E : wrap (a - p) = 0) by (apply H0; [lia|exact E0]).
    rewrite E. simpl. apply Z.mod_small. apply byte_of_range. }
  destruct (Z.ltb_spec (wrap (a - p)) 4) as [Hlt|Hge]; [|reflexivity].
  exfalso.
  assert (wrap (a - p) = 0 \/ wrap (a - p) = 1 \/ wrap (a - p) = 2
          \/ wrap (a - p) = 3) as [E|[E|[E|E]]] by lia.
  - apply E0, H0; [lia|exact E].
  - apply E1, H1; [lia|exact E].
  - apply E2, H2; [lia|exact E].
  - apply E3, H3; [lia|exact E].
Qed.

(** A word read back byte by byte gives the bytes it was assembled from. *)
Lemma byte_of_load32 (m : mem) (s k : Z) :
  0 <= k < 4 -> byte_of (wrap (load32 m s)) k = read8 m (s + k).
Proof.
  intros Hk. unfold load32.
  pose proof (read8_range m s) as R0.
  pose proof (read8_range m (s + 1)) as R1.
  pose proof (read8_range m (s + 2)) as R2.
  pose proof (read8_range m (s + 3)) as R3.
  rewrite wrap_small by (unfold modulus; lia).
  unfold byte_of.
  change (2 ^ 8) with 256. change (2 ^ 16) with 65536.
  change (2 ^ 24) with 16777216.
  assert (k = 0 \/ k = 1 \/ k = 2 \/ k = 3) as [E|[E|[E|E]]] by lia;
    subst k; rewrite ?Z.add_0_r.
  - change (2 ^ (8 * 0)) with 1. Z.div_mod_to_equations. lia.
  - change (2 ^ (8 * 1)) with 256. Z.div_mod_to_equations. lia.
  - change (2 ^ (8 * 2)) with 65536. Z.div_mod_to_equations. lia.
  - change (2 ^ (8 * 3)) with 16777216. Z.div_mod_to_equations. lia.
Qed.

Lemma read8_congr (m : mem) (x y : Z) : wrap x = wrap y -> read8 m x = read8 m y.
Proof. unfold read8. intros ->. reflexivity. Qed.

Lemma wrap_add_wrap_l (x i : Z) : wrap (wrap x + i) = wrap (x + i).
Proof. unfold wrap, modulus. Z.div_mod_to_equations. lia. Qed.

(** ** The monad *)

Lemma prepend_app {A} (t1 t2 : list event) (r : result A) :
  prepend t1 (prepend t2 r) = prepend (t1 ++ t2) r.
Proof. destruct r; simpl; rewrite app_assoc; reflexivity. Qed.

Lemma prepend_nil {A} (r : result A) : prepend [] r = r.
Proof. destruct r; reflexivity. Qed.

Lemma trace_of_prepend {A} (t : list event) (r : result A) :
  trace_of (prepend t r) = t ++ trace_of r.
Proof. destruct r; reflexivity. Qed.

Lemma state_of_prepend {A} (t : list event) (r : result A) :
  state_of (prepend t r) = state_of r.
Proof. destruct r; reflexivity. Qed.

Lemma is_done_prepend {A} (t : list event) (r : result A) :
  is_done (prepend t r) = is_done r.
Proof. destruct r; reflexivity. Qed.

Lemma bind_done {A B} (c : M A) (k : A -> M B) (s s1 : machine) a t1 :
  c s = Done a s1 t1 -> bind c k s = prepend t1 (k a s1).
Proof. unfold bind. intros ->. reflexivity. Qed.

(** The events of a piece of code are a prefix of the events of whatever
    it is followed by. *)
Lemma bind_trace_prefix {A B} (c : M A) (k : A -> M B) (s : machine) :
  exists rest, trace_of (bind c k s) = trace_of (c s) ++ rest.
Proof.
  unfold bind. destruct (c s) as [a s1 t1|l s1 t1|s1 t1|s1 t1]; simpl.
  - rewrite trace_of_prepend. eexists; reflexivity.
  - exists []. rewrite app_nil_r. reflexivity.
  - exists []. rewrite app_nil_r. reflexivity.
  - exists []. rewrite app_nil_r. reflexivity.
Qed.

(** ** The copy and fill loops *)

Lemma boot_memset_loop_zero (fuel : nat) (p c : Z) (st : machine) :
  boot_memset_loop fuel p c 0 st = Done tt st [].
Proof. destruct fuel; reflexivity. Qed.

Lemma boot_memset_loop_step (fuel : nat) (p c n : Z) (st : machine) :
  n <> 0 ->
  boot_memset_loop (S fuel) p c n st =
  prepend [EvStore (wrap p) (wrap c)]
    (boot_memset_loop fuel (wrap (p + 4)) c (wrap (n - 4))
       (set_memory st (store32 (memory st) p (wrap c)))).
Proof.
  intros Hn. simpl. destruct (Z.eqb_spec n 0); [contradiction|reflexivity].
Qed.

Lemma boot_memset_loop_stuck (p c n : Z) (st : machine) :
  n <> 0 -> boot_memset_loop O p c n st = OutOfFuel st [].
Proof.
  intros Hn. simpl. destruct (Z.eqb_spec n 0); [contradiction|reflexivity].
Qed.

Lemma boot_memcpy_loop_zero (fuel : nat) (d s : Z) (st : machine) :
  boot_memcpy_loop fuel d s 0 st = Done tt st [].
Proof. destruct fuel; reflexivity. Qed.

Lemma boot_memcpy_loop_step (fuel : nat) (d s n : Z) (st : machine) :
  n <> 0 ->
  boot_memcpy_loop (S fuel) d s n st =
  prepend [EvLoad (wrap s); EvStore (wrap d) (wrap (load32 (memory st) s))]
    (boot_memcpy_loop fuel (wrap (d + 4)) (wrap (s + 4)) (wrap (n - 4))
       (set_memory st (store32 (memory st) d (wrap (load32 (memory st) s))))).
Proof.
  intros Hn. simpl. destruct (Z.eqb_spec n 0); [contradiction|].
  unfold bind, mem_load32, mem_store32. simpl.
  rewrite prepend_app. reflexivity.
Qed.

Lemma boot_memcpy_loop_stuck (d s n : Z) (st : machine) :
  n <> 0 -> boot_memcpy_loop O d s n st = OutOfFuel st [].
Proof.
  intros Hn. simpl. destruct (Z.eqb_spec n 0); [contradiction|reflexivity].
Qed.

Lemma wrap_sub4 (k : nat) :
  4 * Z.of_nat (S k) < modulus -> wrap (4 * Z.of_nat (S k) - 4) = 4 * Z.of_nat k.
Proof. intros H. rewrite wrap_small; unfold modulus in *; lia. Qed.

(** The fill loop on a length of [k] words: it returns within [k]
    iterations, having stored [k] words, and each byte of the range holds
    the byte of the word [c] at its position. *)
Lemma boot_memset_loop_words (k : nat) :
  forall (fuel : nat) (p c : Z) (st : machine),
    (k <= fuel)%nat -> 4 * Z.of_nat k < modulus ->
    exists st' t,
      boot_memset_loop fuel p c (4 * Z.of_nat k) st = Done tt st' t /\
      st' = set_memory st (memory st') /\
      count_stores t = k /\ length t = k /\
      forall a, read8 (memory st') a =
                if wrap (a - p) <? 4 * Z.of_nat k
                then byte_of (wrap c) (wrap (a - p) mod 4)
                else read8 (memory st) a.
Proof.
  induction k as [|k IH]; intros fuel p c st Hf Hk.
  - exists st, []. rewrite boot_memset_loop_zero.
    repeat split; [destruct st; reflexivity|].
    intros a. pose proof (wrap_range (a - p)).
    destruct (Z.ltb_spec (wrap (a - p)) (4 * Z.of_nat 0)); [lia|reflexivity].
  - destruct fuel as [|fuel]; [lia|].
    rewrite boot_memset_loop_step by lia.
    rewrite wrap_sub4 by exact Hk.
    destruct (IH fuel (wrap (p + 4)) c
                 (set_memory st (store32 (memory st) p (wrap c))))
      as (st' & t & Hrun & Hst & Hcnt & Hlen & Hmem); [lia|lia|].
    rewrite Hrun. simpl prepend.
    exists st', (EvStore (wrap p) (wrap c) :: t).
    split; [reflexivity|]. split; [rewrite Hst at 1; reflexivity|].
    split; [unfold count_stores in *; simpl; lia|].
    split; [simpl; lia|].
    intros a. rewrite Hmem. simpl memory. rewrite read8_store32.
    rewrite wrap_sub_next.
    pose proof (wrap_range (a - p)) as Hr. unfold modulus in *.
    destruct (Z.ltb_spec (wrap (a - p)) 4) as [H4|H4].
    + assert (E : wrap (wrap (a - p) - 4) = wrap (a - p) - 4 + 4294967296).
      { unfold wrap at 1. unfold modulus. Z.div_mod_to_equations. lia. }
      rewrite E.
      destruct (Z.ltb_spec (wrap (a - p) - 4 + 4294967296) (4 * Z.of_nat k));
        [lia|].
      destruct (Z.ltb_spec (wrap (a - p)) (4 * Z.of_nat (S k))); [|lia].
      rewrite (Z.mod_small (wrap (a - p)) 4) by lia. reflexivity.
    + assert (E : wrap (wrap (a - p) - 4) = wrap (a - p) - 4).
      { apply wrap_small. unfold modulus. lia. }
      rewrite E.
      assert (Em : (wrap (a - p) - 4) mod 4 = wrap (a - p) mod 4).
      { Z.div_mod_to_equations. lia. }
      rewrite Em.
      destruct (Z.ltb_spec (wrap (a - p) - 4) (4 * Z.of_nat k));
        destruct (Z.ltb_spec (wrap (a - p)) (4 * Z.of_nat (S k)));
        try lia; reflexivity.
Qed.

(** The copy loop on a length of [k] words: it returns within [k]
    iterations, having loaded and stored [k] words; bytes outside the
    destination keep their value, and when the two ranges share no byte
    the destination holds the bytes the source had. *)
Lemma boot_memcpy_loop_words (k : nat) :
  forall (fuel : nat) (d s : Z) (st : machine),
    (k <= fuel)%nat -> 4 * Z.of_nat k < modulus ->
    exists st' t,
      boot_memcpy_loop fuel d s (4 * Z.of_nat k) st = Done tt st' t /\
      st' = set_memory st (memory st') /\
      count_stores t = k /\ count_loads t = k /\
      (forall a, 4 * Z.of_nat k <= wrap (a - d) ->
                 read8 (memory st') a = read8 (memory st) a) /\
      (ranges_disjoint d s (4 * Z.of_nat k) ->
       forall i, 0 <= i < 4 * Z.of_nat k ->
                 read8 (memory st') (d + i) = read8 (memory st) (s + i)).
Proof.
  induction k as [|k IH]; intros fuel d s st Hf Hk.
  - exists st, []. rewrite boot_memcpy_loop_zero.
    repeat split; [destruct st; reflexivity|].
    intros _ i Hi. lia.
  - destruct fuel as [|fuel]; [lia|].
    rewrite boot_memcpy_loop_step by lia.
    rewrite wrap_sub4 by exact Hk.
    set (v := wrap (load32 (memory st) s)).
    destruct (IH fuel (wrap (d + 4)) (wrap (s + 4))
                 (set_memory st (store32 (memory st) d v)))
      as (st' & t & Hrun & Hst & Hcs & Hcl & Hframe & Hcopy); [lia|lia|].
    rewrite Hrun. simpl prepend.
    eexists st', _. split; [reflexivity|].
    split; [rewrite Hst at 1; reflexivity|].
    split; [unfold count_stores in *; simpl; lia|].
    split; [unfold count_loads in *; simpl; lia|].
    simpl memory in *. unfold modulus in Hk.
    split.
    + intros a Ha. pose proof (wrap_range (a - d)) as Hr. unfold modulus in Hr.
      rewrite Hframe.
      * rewrite read8_store32.
        destruct (Z.ltb_spec (wrap (a - d)) 4); [lia|reflexivity].
      * rewrite wrap_sub_next. rewrite wrap_small; unfold modulus; lia.
    + intros Hdis i Hi.
      destruct (Z.lt_ge_cases i 4) as [Hlo|Hhi].
      * rewrite Hframe.
        -- rewrite read8_store32.
           replace (d + i - d) with i by lia.
           rewrite (wrap_small i) by (unfold modulus; lia).
           destruct (Z.ltb_spec i 4); [|lia].
           unfold v. apply byte_of_load32. lia.
        -- rewrite wrap_sub_next. replace (d + i - d) with i by lia.
           rewrite (wrap_small i) by (unfold modulus; lia).
           unfold wrap, modulus. Z.div_mod_to_equations. lia.
      * assert (Hd' : ranges_disjoint (wrap (d + 4)) (wrap (s + 4))
                                      (4 * Z.of_nat k)).
        { intros i' j' Hi' Hj'. rewrite !wrap_add_wrap_l.
          replace (d + 4 + i') with (d + (4 + i')) by lia.
          replace (s + 4 + j') with (s + (4 + j')) by lia.
          apply Hdis; lia. }
        specialize (Hcopy Hd' (i - 4)).
        rewrite (read8_congr _ (d + i) (wrap (d + 4) + (i - 4))).
        2:{ rewrite wrap_add_wrap_l. f_equal. lia. }
        rewrite Hcopy by lia.
        rewrite (read8_congr _ (wrap (s + 4) + (i - 4)) (s + i)).
        2:{ rewrite wrap_add_wrap_l. f_equal. lia. }
        rewrite read8_store32.
        pose proof (wrap_range (s + i - d)) as Hr. unfold modulus in Hr.
        destruct (Z.ltb_spec (wrap (s + i - d)) 4) as [Hin|]; [|reflexivity].
        exfalso. apply (Hdis (wrap (s + i - d)) i); [lia|lia|].
        symmetry. apply wrap_offset; [unfold modulus; lia|reflexivity].
Qed.

(** Both loops keep the counter's remainder modulo 4, so a counter that is
    not a multiple of 4 never becomes zero. *)
Lemma counter_after_mod4 (n : Z) (k : nat) : counter_after n k mod 4 = n mod 4.
Proof.
  unfold counter_after. induction k as [|k IH]; [reflexivity|].
  simpl. rewrite wrap_mod4. rewrite <- IH.
  Z.div_mod_to_equations. lia.
Qed.

Lemma boot_memset_loop_diverges (fuel : nat) :
  forall (p c n : Z) (st : machine),
    n mod 4 <> 0 ->
    exists st' t, boot_memset_loop fuel p c n st = OutOfFuel st' t /\
                  count_stores t = fuel.
Proof.
  induction fuel as [|fuel IH]; intros p c n st Hn.
  - exists st, []. split; [|reflexivity].
    apply boot_memset_loop_stuck. intros ->. apply Hn. reflexivity.
  - rewrite boot_memset_loop_step by (intros ->; apply Hn; reflexivity).
    destruct (IH (wrap (p + 4)) c (wrap (n - 4))
                 (set_memory st (store32 (memory st) p (wrap c))))
      as (st' & t & Hrun & Hlen).
    { rewrite wrap_mod4. Z.div_mod_to_equations. lia. }
    rewrite Hrun. simpl. eexists _, _. split; [reflexivity|].
    unfold count_stores in *. simpl. lia.
Qed.

(** The counter the loop tests after [k] iterations is [counter_after n k]. *)
Lemma boot_memset_loop_counter (k : nat) :
  forall (fuel : nat) (p c n : Z) (st : machine),
    n mod 4 <> 0 ->
    exists p' st' t,
      boot_memset_loop (k + fuel) p c n st =
      prepend t (boot_memset_loop fuel p' c (counter_after n k) st') /\
      count_stores t = k.
Proof.
  induction k as [|k IH]; intros fuel p c n st Hn.
  - exists p, st, []. rewrite prepend_nil. split; reflexivity.
  - change (S k + fuel)%nat with (S (k + fuel)).
    rewrite boot_memset_loop_step by (intros ->; apply Hn; reflexivity).
    destruct (IH fuel (wrap (p + 4)) c (wrap (n - 4))
                 (set_memory st (store32 (memory st) p (wrap c))))
      as (p' & st' & t & Hrun & Hcs).
    { rewrite wrap_mod4. Z.div_mod_to_equations. lia. }
    rewrite Hrun, prepend_app. unfold counter_after.
    rewrite Nat.iter_succ_r. eexists p', st', _. split; [reflexivity|].
    unfold count_stores in *. simpl. lia.
Qed.

Lemma boot_memcpy_loop_counter (k : nat) :
  forall (fuel : nat) (d s n : Z) (st : machine),
    n mod 4 <> 0 ->
    exists d' s' st' t,
      boot_memcpy_loop (k + fuel) d s n st =
      prepend t (boot_memcpy_loop fuel d' s' (counter_after n k) st') /\
      count_stores t = k.
Proof.
  induction k as [|k IH]; intros fuel d s n st Hn.
  - exists d, s, st, []. rewrite prepend_nil. split; reflexivity.
  - change (S k + fuel)%nat with (S (k + fuel)).
    rewrite boot_memcpy_loop_step by (intros ->; apply Hn; reflexivity).
    destruct (IH fuel (wrap (d + 4)) (wrap (s + 4)) (wrap (n - 4))
                 (set_memory st (store32 (memory st) d
                                   (wrap (load32 (memory st) s)))))
      as (d' & s' & st' & t & Hrun & Hcs).
    { rewrite wrap_mod4. Z.div_mod_to_equations. lia. }
    rewrite Hrun, prepend_app. unfold counter_after.
    rewrite Nat.iter_succ_r. eexists d', s', st', _. split; [reflexivity|].
    unfold count_stores in *. simpl. lia.
Qed.

Lemma boot_memcpy_loop_diverges (fuel : nat) :
  forall (d s n : Z) (st : machine),
    n mod 4 <> 0 ->
    exists st' t, boot_memcpy_loop fuel d s n st = OutOfFuel st' t /\
                  count_stores t = fuel.
Proof.
  induction fuel as [|fuel IH]; intros d s n st Hn.
  - exists st, []. split; [|reflexivity].
    apply boot_memcpy_loop_stuck. intros ->. apply Hn. reflexivity.
  - rewrite boot_memcpy_loop_step by (intros ->; apply Hn; reflexivity).
    destruct (IH (wrap (d + 4)) (wrap (s + 4)) (wrap (n - 4))
                 (set_memory st (store32 (memory st) d
                                   (wrap (load32 (memory st) s)))))
      as (st' & t & Hrun & Hlen).
    { rewrite wrap_mod4. Z.div_mod_to_equations. lia. }
    rewrite Hrun. simpl. eexists _, _. split; [reflexivity|].
    unfold count_stores in *. simpl. lia.
Qed.

(** With fewer iterations than words, either loop is still running. *)
Lemma boot_memset_loop_short (fuel : nat) :
  forall (k : nat) (p c : Z) (st : machine),
    (fuel < k)%nat -> 4 * Z.of_nat k < modulus ->
    exists st' t, boot_memset_loop fuel p c (4 * Z.of_nat k) st = OutOfFuel st' t.
Proof.
  induction fuel as [|fuel IH]; intros k p c st Hf Hk.
  - exists st, []. apply boot_memset_loop_stuck. lia.
  - destruct k as [|k]; [lia|].
    rewrite boot_memset_loop_step by lia. rewrite wrap_sub4 by exact Hk.
    destruct (IH k (wrap (p + 4)) c
                 (set_memory st (store32 (memory st) p (wrap c))))
      as (st' & t & Hrun); [lia|lia|].
    rewrite Hrun. simpl. eexists _, _. reflexivity.
Qed.

Lemma boot_memcpy_loop_short (fuel : nat) :
  forall (k : nat) (d s : Z) (st : machine),
    (fuel < k)%nat -> 4 * Z.of_nat k < modulus ->
    exists st' t, boot_memcpy_loop fuel d s (4 * Z.of_nat k) st = OutOfFuel st' t.
Proof.
  induction fuel as [|fuel IH]; intros k d s st Hf Hk.
  - exists st, []. apply boot_memcpy_loop_stuck. lia.
  - destruct k as [|k]; [lia|].
    rewrite boot_memcpy_loop_step by lia. rewrite wrap_sub4 by exact Hk.
    destruct (IH k (wrap (d + 4)) (wrap (s + 4))
                 (set_memory st (store32 (memory st) d
                                   (wrap (load32 (memory st) s)))))
      as (st' & t & Hrun); [lia|lia|].
    rewrite Hrun. simpl. eexists _, _. reflexivity.
Qed.

(** ** The primitives on a length in bytes *)

Lemma words_of_length (n : Z) :
  0 <= n < modulus -> n mod 4 = 0 -> n = 4 * Z.of_nat (Z.to_nat (n / 4)).
Proof.
  intros Hn H4. rewrite Z2Nat.id by (apply Z.div_pos; lia).
  Z.div_mod_to_equations. lia.
Qed.

Lemma boot_memset_returns (fuel : nat) (s c n : Z) (st : machine) :
  0 <= n < modulus -> n mod 4 = 0 -> (Z.to_nat (n / 4) <= fuel)%nat ->
  exists st' t,
    boot_memset fuel s c n st = Done tt st' t /\
    st' = set_memory st (memory st') /\
    count_stores t = Z.to_nat (n / 4) /\ length t = Z.to_nat (n / 4) /\
    forall a, read8 (memory st') a =
              if wrap (a - s) <? n
              then byte_of (wrap c) (wrap (a - s) mod 4)
              else read8 (memory st) a.
Proof.
  intros Hn H4 Hf. pose proof (words_of_length n Hn H4) as E.
  destruct (boot_memset_loop_words (Z.to_nat (n / 4)) fuel s c st Hf)
    as (st' & t & Hrun & Hst & Hcs & Hlen & Hmem); [lia|].
  rewrite <- E in *.
  exists st', t. unfold boot_memset. repeat split; assumption.
Qed.

Lemma boot_memcpy_returns (fuel : nat) (dest src n : Z) (st : machine) :
  0 <= n < modulus -> n mod 4 = 0 -> (Z.to_nat (n / 4) <= fuel)%nat ->
  exists st' t,
    boot_memcpy fuel dest src n st = Done tt st' t /\
    st' = set_memory st (memory st') /\
    count_stores t = Z.to_nat (n / 4) /\ count_loads t = Z.to_nat (n / 4) /\
    (forall a, ~ in_range dest n a ->
               read8 (memory st') a = read8 (memory st) a) /\
    (ranges_disjoint dest src n ->
     forall i, 0 <= i < n ->
               read8 (memory st') (dest + i) = read8 (memory st) (src + i)).
Proof.
  intros Hn H4 Hf. pose proof (words_of_length n Hn H4) as E.
  destruct (boot_memcpy_loop_words (Z.to_nat (n / 4)) fuel dest src st Hf)
    as (st' & t & Hrun & Hst & Hcs & Hcl & Hframe & Hcopy); [lia|].
  rewrite <- E in *.
  exists st', t. unfold boot_memcpy, in_range.
  repeat split; try assumption.
  intros a Ha. apply Hframe. lia.
Qed.

(** A source byte is outside the destination when the ranges share none. *)
Lemma source_outside_destination (dest src n j : Z) :
  0 <= n < modulus -> ranges_disjoint dest src n -> 0 <= j < n ->
  ~ in_range dest n (src + j).
Proof.
  intros Hn Hdis Hj Hin. unfold in_range in Hin.
  pose proof (wrap_range (src + j - dest)) as Hr.
  apply (Hdis (wrap (src + j - dest)) j); [lia|lia|].
  symmetry. apply wrap_offset; [lia|reflexivity].
Qed.

(** Ranges that do not wrap and lie apart share no byte. *)
Lemma ranges_disjoint_linear (d s n : Z) :
  0 <= d -> d + n <= modulus -> 0 <= s -> s + n <= modulus ->
  d + n <= s \/ s + n <= d ->
  ranges_disjoint d s n.
Proof.
  intros Hd Hdn Hs Hsn Hapart i j Hi Hj.
  rewrite !wrap_small by lia. lia.
Qed.

(** *** Termination *)

(** C10: the loops of [boot_memcpy] and [boot_memset] terminate exactly
    when the length is a multiple of 4.  When 4 divides [n] they return
    after [n / 4] iterations: [n / 4] iterations are enough, fewer are not,
    and [n / 4] words have been stored.  When 4 does not divide [n] the
    counter, decremented by 4 with wrap-around, is never zero, and however
    many iterations are granted the loop performs them all and is still
    running. *)
Theorem boot_loops_terminate_iff_multiple_of_4
    (n : Z) (Hn : 0 <= n < modulus) :
  (n mod 4 = 0 ->
   forall (fuel : nat) (p c d s : Z) (st : machine),
     ((Z.to_nat (n / 4) <= fuel)%nat ->
      (exists st' t, boot_memset fuel p c n st = Done tt st' t /\
                     count_stores t = Z.to_nat (n / 4)) /\
      (exists st' t, boot_memcpy fuel d s n st = Done tt st' t /\
                     count_stores t = Z.to_nat (n / 4))) /\
     ((fuel < Z.to_nat (n / 4))%nat ->
      (exists st' t, boot_memset fuel p c n st = OutOfFuel st' t) /\
      (exists st' t, boot_memcpy fuel d s n st = OutOfFuel st' t))) /\
  (n mod 4 <> 0 ->
   (forall k : nat, counter_after n k <> 0) /\
   forall (fuel : nat) (p c d s : Z) (st : machine),
     (exists st' t, boot_memset fuel p c n st = OutOfFuel st' t /\
                    count_stores t = fuel) /\
     (exists st' t, boot_memcpy fuel d s n st = OutOfFuel st' t /\
                    count_stores t = fuel)).
Proof.
  split.
  - intros H4 fuel p c d s st. split.
    + intros Hf. split.
      * destruct (boot_memset_returns fuel p c n st Hn H4 Hf)
          as (st' & t & Hrun & _ & Hcs & _). eauto.
      * destruct (boot_memcpy_returns fuel d s n st Hn H4 Hf)
          as (st' & t & Hrun & _ & Hcs & _). eauto.
    + intros Hf. pose proof (words_of_length n Hn H4) as E.
      unfold boot_memset, boot_memcpy. split.
      * destruct (boot_memset_loop_short fuel (Z.to_nat (n / 4)) p c st Hf)
          as (st' & t & Hrun); [lia|].
        rewrite <- E in Hrun. eauto.
      * destruct (boot_memcpy_loop_short fuel (Z.to_nat (n / 4)) d s st Hf)
          as (st' & t & Hrun); [lia|].
        rewrite <- E in Hrun. eauto.
  - intros H4. split.
    + intros k Hk. apply H4. rewrite <- (counter_after_mod4 n k), Hk.
      reflexivity.
    + intros fuel p c d s st. split.
      * apply boot_memset_loop_diverges, H4.
      * apply boot_memcpy_loop_diverges, H4.
Qed.

Lemma boot_loops_terminate_witness :
  0 <= 8 < modulus /\
  exists st' t, boot_memset 2 0x20000000 0 8 sample_machine = Done tt st' t /\
                count_stores t = Z.to_nat (8 / 4).
Proof.
  assert (H8 : 0 <= 8 < modulus) by (unfold modulus; lia).
  split; [exact H8|].
  destruct (boot_loops_terminate_iff_multiple_of_4 8 H8) as [Hmult _].
  destruct (Hmult eq_refl 2%nat 0x20000000 0 0 0 sample_machine) as [Hdone _].
  apply Hdone. simpl. lia.
Defined.

(** *** Frame *)

(** C8, as amended: for a length [n] that is a multiple of 4, [boot_memcpy]
    and [boot_memset] return with every byte outside the [n] destination
    bytes unchanged, and nothing but memory changed; the source range of
    [boot_memcpy] is unchanged when it shares no byte with the destination;
    for [n = 0] the machine is the one before and no access was made. *)
Theorem boot_copy_fill_frame
    (n : Z) (fuel : nat) (st : machine)
    (Hn : 0 <= n < modulus) (H4 : n mod 4 = 0)
    (Hf : (Z.to_nat (n / 4) <= fuel)%nat) :
  (forall dest src, exists st' t,
      boot_memcpy fuel dest src n st = Done tt st' t /\
      st' = set_memory st (memory st') /\
      (forall a, ~ in_range dest n a ->
                 read8 (memory st') a = read8 (memory st) a) /\
      (ranges_disjoint dest src n ->
       forall j, 0 <= j < n ->
                 read8 (memory st') (src + j) = read8 (memory st) (src + j)) /\
      (n = 0 -> st' = st /\ t = [])) /\
  (forall s c, exists st' t,
      boot_memset fuel s c n st = Done tt st' t /\
      st' = set_memory st (memory st') /\
      (forall a, ~ in_range s n a ->
                 read8 (memory st') a = read8 (memory st) a) /\
      (n = 0 -> st' = st /\ t = [])).
Proof.
  split.
  - intros dest src.
    destruct (boot_memcpy_returns fuel dest src n st Hn H4 Hf)
      as (st' & t & Hrun & Hst & _ & _ & Hframe & _).
    exists st', t. repeat split; try assumption.
    + intros Hdis j Hj. apply Hframe.
      apply source_outside_destination; assumption.
    + subst n. unfold boot_memcpy in Hrun.
      rewrite boot_memcpy_loop_zero in Hrun. congruence.
    + subst n. unfold boot_memcpy in Hrun.
      rewrite boot_memcpy_loop_zero in Hrun. congruence.
  - intros s c.
    destruct (boot_memset_returns fuel s c n st Hn H4 Hf)
      as (st' & t & Hrun & Hst & _ & _ & Hmem).
    exists st', t. repeat split; try assumption.
    + intros a Ha. rewrite Hmem. unfold in_range in Ha.
      destruct (Z.ltb_spec (wrap (a - s)) n); [contradiction|reflexivity].
    + subst n. unfold boot_memset in Hrun.
      rewrite boot_memset_loop_zero in Hrun. congruence.
    + subst n. unfold boot_memset in Hrun.
      rewrite boot_memset_loop_zero in Hrun. congruence.
Qed.

Lemma boot_copy_fill_frame_witness :
  (0 <= 8 < modulus /\ 8 mod 4 = 0 /\ (Z.to_nat (8 / 4) <= 2)%nat) /\
  exists st' t,
    boot_memcpy 2 0x20000000 0x08000000 8 sample_machine = Done tt st' t /\
    forall a, ~ in_range 0x20000000 8 a ->
              read8 (memory st') a = read8 (memory sample_machine) a.
Proof.
  assert (H8 : 0 <= 8 < modulus) by (unfold modulus; lia).
  assert (Hf : (Z.to_nat (8 / 4) <= 2)%nat) by (simpl; lia).
  split; [split; [exact H8|split; [reflexivity|exact Hf]]|].
  destruct (boot_copy_fill_frame 8 2 sample_machine H8 eq_refl Hf)
    as [Hcpy _].
  destruct (Hcpy 0x20000000 0x08000000) as (st' & t & Hrun & _ & Hframe & _).
  exists st', t. split; [exact Hrun|exact Hframe].
Defined.

(** C8, as stated, fails when the source overlaps the destination: copying
    8 bytes from address 0 to address 4 returns, and the source byte at
    address 4 has changed from 4 to 0. *)
Lemma boot_memcpy_overlap_changes_source :
  8 mod 4 = 0 /\
  is_done (boot_memcpy 2 4 0 8 sample_machine) = true /\
  read8 (memory sample_machine) (0 + 4) = 4 /\
  read8 (memory (state_of (boot_memcpy 2 4 0 8 sample_machine))) (0 + 4) = 0 /\
  ~ (forall j, 0 <= j < 8 ->
       read8 (memory (state_of (boot_memcpy 2 4 0 8 sample_machine))) (0 + j)
       = read8 (memory sample_machine) (0 + j)).
Proof.
  split; [reflexivity|]. split; [reflexivity|].
  split; [reflexivity|]. split; [vm_compute; reflexivity|].
  intros H. specialize (H 4 ltac:(lia)). vm_compute in H. discriminate H.
Qed.

(** *** Word fill against byte fill *)

Lemma read8_memset_bytes (m : mem) (s c n a : Z) :
  read8 (memset_bytes m s c n) a =
  if wrap (a - s) <? n then c mod 256 else read8 m a.
Proof.
  unfold read8, memset_bytes.
  replace (wrap (wrap a - s)) with (wrap (a - s))
    by (unfold wrap, modulus; Z.div_mod_to_equations; lia).
  destruct (wrap (a - s) <? n); [|reflexivity].
  apply Z.mod_mod. lia.
Qed.

Lemma word_of_bytes (v : Z) :
  0 <= v < modulus ->
  byte_of v 0 + 2 ^ 8 * byte_of v 1 + 2 ^ 16 * byte_of v 2
  + 2 ^ 24 * byte_of v 3 = v.
Proof.
  unfold modulus, byte_of. intros Hv.
  change (2 ^ (8 * 0)) with 1. change (2 ^ (8 * 1)) with 256.
  change (2 ^ (8 * 2)) with 65536. change (2 ^ (8 * 3)) with 16777216.
  change (2 ^ 8) with 256. change (2 ^ 16) with 65536.
  change (2 ^ 24) with 16777216.
  Z.div_mod_to_equations. lia.
Qed.

Lemma byte_of_wrap_0 (c : Z) : byte_of (wrap c) 0 = c mod 256.
Proof.
  unfold byte_of, wrap, modulus. change (2 ^ (8 * 0)) with 1.
  Z.div_mod_to_equations. lia.
Qed.

Lemma all_bytes_equal_true (c k : Z) :
  all_bytes_equal c = true -> 0 <= k < 4 -> byte_of (wrap c) k = c mod 256.
Proof.
  unfold all_bytes_equal. intros H Hk.
  apply andb_true_iff in H as [H H3]. apply andb_true_iff in H as [H1 H2].
  apply Z.eqb_eq in H1, H2, H3. rewrite <- byte_of_wrap_0.
  assert (k = 0 \/ k = 1 \/ k = 2 \/ k = 3) as [E|[E|[E|E]]] by lia;
    subst k; congruence.
Qed.

Lemma all_bytes_equal_false (c : Z) :
  all_bytes_equal c = false ->
  exists k, 0 < k < 4 /\ byte_of (wrap c) k <> c mod 256.
Proof.
  unfold all_bytes_equal. rewrite <- byte_of_wrap_0. intros H.
  destruct (Z.eqb_spec (byte_of (wrap c) 1) (byte_of (wrap c) 0)) as [E1|E1];
    [|exists 1; split; [lia|exact E1]].
  destruct (Z.eqb_spec (byte_of (wrap c) 2) (byte_of (wrap c) 0)) as [E2|E2];
    [|exists 2; split; [lia|exact E2]].
  destruct (Z.eqb_spec (byte_of (wrap c) 3) (byte_of (wrap c) 0)) as [E3|E3];
    [|exists 3; split; [lia|exact E3]].
  discriminate H.
Qed.

Lemma wrap_offset_small (s k : Z) : 0 <= k < modulus -> wrap (s + k - s) = k.
Proof. intros Hk. replace (s + k - s) with k by lia. apply wrap_small, Hk. Qed.

(** What [boot_memset] leaves in memory, against the byte-wise fill. *)
Lemma boot_memset_word_fill (fuel : nat) (s c n : Z) (st : machine) :
  0 <= n < modulus -> n mod 4 = 0 -> (Z.to_nat (n / 4) <= fuel)%nat ->
  exists st' t,
    boot_memset fuel s c n st = Done tt st' t /\
    (forall i, 0 <= i < n / 4 -> load32 (memory st') (s + 4 * i) = wrap c) /\
    (all_bytes_equal c = true ->
     forall a, read8 (memory st') a
               = read8 (memset_bytes (memory st) s c n) a) /\
    (all_bytes_equal c = false -> 0 < n ->
     exists a, in_range s n a /\
               read8 (memory st') a
               <> read8 (memset_bytes (memory st) s c n) a).
Proof.
  intros Hn H4 Hf.
  destruct (boot_memset_returns fuel s c n st Hn H4 Hf)
    as (st' & t & Hrun & _ & _ & _ & Hmem).
  exists st', t. split; [exact Hrun|]. unfold modulus in Hn.
  assert (Hbyte : forall i j, 0 <= i < n / 4 -> 0 <= j < 4 ->
            read8 (memory st') (s + (4 * i + j)) = byte_of (wrap c) j).
  { intros i j Hi Hj.
    assert (Hlt : 4 * i + j < n) by (Z.div_mod_to_equations; lia).
    rewrite Hmem.
    replace (s + (4 * i + j) - s) with (4 * i + j) by lia.
    rewrite wrap_small by (unfold modulus; lia).
    destruct (Z.ltb_spec (4 * i + j) n); [|lia].
    f_equal. Z.div_mod_to_equations. lia. }
  split; [|split].
  - intros i Hi. unfold load32.
    replace (s + 4 * i) with (s + (4 * i + 0)) at 1 by lia.
    replace (s + 4 * i + 1) with (s + (4 * i + 1)) by lia.
    replace (s + 4 * i + 2) with (s + (4 * i + 2)) by lia.
    replace (s + 4 * i + 3) with (s + (4 * i + 3)) by lia.
    rewrite !Hbyte by lia.
    apply word_of_bytes, wrap_range.
  - intros Hu a. rewrite Hmem, read8_memset_bytes.
    destruct (wrap (a - s) <? n); [|reflexivity].
    apply all_bytes_equal_true; [exact Hu|].
    apply Z.mod_pos_bound. lia.
  - intros Hu Hpos.
    destruct (all_bytes_equal_false c Hu) as (k & Hk & Hne).
    assert (Hn4 : 4 <= n) by (Z.div_mod_to_equations; lia).
    exists (s + k). unfold in_range.
    rewrite Hmem, read8_memset_bytes.
    replace (s + k - s) with k by lia.
    rewrite wrap_small by (unfold modulus; lia).
    split; [lia|].
    destruct (Z.ltb_spec k n); [|lia].
    rewrite Z.mod_small by lia. exact Hne.
Qed.

(** C9: [boot_memset] stores the word [c] into each of the [n / 4]
    destination words, so it agrees with the byte-wise fill on every call
    if and only if the four bytes of [c] as a 32-bit word are equal; when
    they are not, it differs from the byte-wise fill on every call of
    non-zero length. *)
Theorem boot_memset_agrees_with_bytewise_iff (c : Z) :
  (forall (fuel : nat) (s n : Z) (st : machine),
      0 <= n < modulus -> n mod 4 = 0 -> (Z.to_nat (n / 4) <= fuel)%nat ->
      exists st' t,
        boot_memset fuel s c n st = Done tt st' t /\
        (forall i, 0 <= i < n / 4 ->
                   load32 (memory st') (s + 4 * i) = wrap c) /\
        (all_bytes_equal c = false -> 0 < n ->
         exists a, in_range s n a /\
                   read8 (memory st') a
                   <> read8 (memset_bytes (memory st) s c n) a)) /\
  ((forall (fuel : nat) (s n : Z) (st : machine),
       0 <= n < modulus -> n mod 4 = 0 -> (Z.to_nat (n / 4) <= fuel)%nat ->
       forall a, read8 (memory (state_of (boot_memset fuel s c n st))) a
                 = read8 (memset_bytes (memory st) s c n) a)
   <-> all_bytes_equal c = true).
Proof.
  split.
  - intros fuel s n st Hn H4 Hf.
    destruct (boot_memset_word_fill fuel s c n st Hn H4 Hf)
      as (st' & t & Hrun & Hw & _ & Hd).
    exists st', t. auto.
  - split.
    + intros Hall. destruct (all_bytes_equal c) eqn:Hu; [reflexivity|].
      exfalso.
      assert (H4 : 0 <= 4 < modulus) by (unfold modulus; lia).
      destruct (boot_memset_word_fill 1 0 c 4 sample_machine H4 eq_refl)
        as (st' & t & Hrun & _ & _ & Hd); [simpl; lia|].
      destruct (Hd Hu) as (a & _ & Hne); [lia|].
      apply Hne. specialize (Hall 1%nat 0 4 sample_machine H4 eq_refl).
      rewrite Hrun in Hall. apply Hall. simpl. lia.
    + intros Hu fuel s n st Hn H4 Hf a.
      destruct (boot_memset_word_fill fuel s c n st Hn H4 Hf)
        as (st' & t & Hrun & _ & Ha & _).
      rewrite Hrun. apply Ha, Hu.
Qed.

(** The two values of the claim: 0 fills like the byte-wise fill; 1 leaves
    the word 0x00000001 where the byte-wise fill leaves 0x01010101. *)
Lemma boot_memset_agrees_witness :
  all_bytes_equal 0 = true /\ all_bytes_equal 1 = false /\
  load32 (memory (state_of (boot_memset 1 0x20000000 1 4 sample_machine)))
         0x20000000 = 0x00000001 /\
  load32 (memset_bytes (memory sample_machine) 0x20000000 1 4)
         0x20000000 = 0x01010101 /\
  forall a,
    read8 (memory (state_of (boot_memset 1 0x20000000 0 4 sample_machine))) a
    = read8 (memset_bytes (memory sample_machine) 0x20000000 0 4) a.
Proof.
  split; [reflexivity|]. split; [reflexivity|].
  split; [vm_compute; reflexivity|]. split; [vm_compute; reflexivity|].
  assert (H4 : 0 <= 4 < modulus) by (unfold modulus; lia).
  destruct (boot_memset_agrees_with_bytewise_iff 0) as [_ [_ Hagree]].
  apply (Hagree eq_refl 1%nat 0x20000000 4 sample_machine H4 eq_refl).
  simpl. lia.
Defined.

(** ** Linker symbols *)

(** On a word-aligned region [(&stop - &start) * 4] is the size of the
    region in bytes, a multiple of 4. *)
Lemma count_of_word_region (start stop : Z) :
  word_region start stop -> byte_distance stop start = stop - start.
Proof.
  unfold word_region, is_address, byte_distance.
  intros (Ha & Hb & Hle & _ & _). apply wrap_small. lia.
Qed.

Lemma count_of_word_region_mod4 (start stop : Z) :
  word_region start stop -> byte_distance stop start mod 4 = 0.
Proof.
  intros H. rewrite (count_of_word_region _ _ H).
  destruct H as (_ & _ & _ & Ha & Hb). unfold aligned4 in *.
  Z.div_mod_to_equations. lia.
Qed.

Lemma byte_distance_range (stop start : Z) :
  0 <= byte_distance stop start < modulus.
Proof. apply wrap_range. Qed.

(** ** Stage two *)

Lemma keeps_memory_ret {A} (a : A) : keeps_memory (ret a).
Proof. intros s. exists a, s, []. split; reflexivity. Qed.

Lemma keeps_memory_bind {A B} (c : M A) (k : A -> M B) :
  keeps_memory c -> (forall a, keeps_memory (k a)) -> keeps_memory (bind c k).
Proof.
  intros Hc Hk s. destruct (Hc s) as (a & s1 & t1 & Hrun & Hm).
  destruct (Hk a s1) as (b & s2 & t2 & Hrun2 & Hm2).
  exists b, s2, (t1 ++ t2). unfold bind. rewrite Hrun, Hrun2. simpl.
  split; [reflexivity|congruence].
Qed.

Lemma keeps_memory_reg_write (r : reg) (v : Z) : keeps_memory (reg_write r v).
Proof. intros s. eexists _, _, _. split; reflexivity. Qed.

Lemma keeps_memory_reg_read (r : reg) : keeps_memory (reg_read r).
Proof. intros s. eexists _, _, _. split; reflexivity. Qed.

Lemma keeps_memory_dsb : keeps_memory dsb.
Proof. intros s. eexists _, _, _. split; reflexivity. Qed.

Lemma keeps_memory_isb : keeps_memory isb.
Proof. intros s. eexists _, _, _. split; reflexivity. Qed.

Lemma keeps_memory_enable_irq : keeps_memory enable_irq.
Proof. intros s. eexists _, _, _. split; reflexivity. Qed.

Lemma keeps_memory_for_range (k : nat) :
  forall (i0 : nat) (body : nat -> M unit),
    (forall i, keeps_memory (body i)) -> keeps_memory (for_range i0 k body).
Proof.
  induction k as [|k IH]; intros i0 body Hbody; simpl.
  - apply keeps_memory_ret.
  - apply keeps_memory_bind; [apply Hbody|]. intros _. apply IH, Hbody.
Qed.

Create HintDb boot.
#[local] Hint Resolve keeps_memory_ret keeps_memory_reg_write
  keeps_memory_reg_read keeps_memory_dsb keeps_memory_isb
  keeps_memory_enable_irq : boot.

Section BootProperties.

Variable L : linker_symbols.
Variable B : board_support.
Variable armcm_main : M unit.

Lemma stage_two_reset_irqs_keeps_memory :
  keeps_memory (stage_two_reset_irqs B).
Proof.
  unfold stage_two_reset_irqs.
  repeat first
    [ apply keeps_memory_bind; [|intros _]
    | apply keeps_memory_for_range; intros ?
    | match goal with |- keeps_memory (if ?b then _ else _) => destruct b end
    | solve [auto with boot] ].
Qed.

Lemma stage_two_reset_irqs_done (s : machine) :
  exists s' t, stage_two_reset_irqs B s = Done tt s' t /\
               memory s' = memory s.
Proof.
  destruct (stage_two_reset_irqs_keeps_memory s) as ([] & s' & t & H).
  eauto.
Qed.

(** The data copy returns when its length is a multiple of 4, within
    [data_count / 4] iterations. *)
Lemma stage_two_copy_data_done (fuel : nat) (s : machine) :
  data_count L mod 4 = 0 ->
  (Z.to_nat (data_count L / 4) <= fuel)%nat ->
  exists s' t,
    stage_two_copy_data L fuel s = Done tt s' t /\
    (forall a, ~ in_range (_data_start L) (data_count L) a ->
               read8 (memory s') a = read8 (memory s) a) /\
    (ranges_disjoint (_data_start L) (_data_flash L) (data_count L) ->
     forall i, 0 <= i < data_count L ->
               read8 (memory s') (_data_start L + i)
               = read8 (memory s) (_data_flash L + i)).
Proof.
  intros H4 Hf. unfold stage_two_copy_data.
  pose proof (byte_distance_range (_data_end L) (_data_start L)) as Hr.
  destruct (boot_memcpy_returns fuel (_data_start L) (_data_flash L)
              (data_count L) s Hr H4 Hf)
    as (s' & t & Hrun & _ & _ & _ & Hframe & Hcopy).
  eauto.
Qed.

Lemma stage_two_clear_bss_done (fuel : nat) (s : machine) :
  bss_count L mod 4 = 0 ->
  (Z.to_nat (bss_count L / 4) <= fuel)%nat ->
  exists s' t,
    stage_two_clear_bss L fuel s = Done tt s' t /\
    forall a, read8 (memory s') a =
              if wrap (a - _bss_start L) <? bss_count L then 0
              else read8 (memory s) a.
Proof.
  intros H4 Hf. unfold stage_two_clear_bss.
  pose proof (byte_distance_range (_bss_end L) (_bss_start L)) as Hr.
  destruct (boot_memset_returns fuel (_bss_start L) 0 (bss_count L) s
              Hr H4 Hf)
    as (s' & t & Hrun & _ & _ & _ & Hmem).
  exists s', t. split; [exact Hrun|].
  intros a. rewrite Hmem.
  destruct (wrap (a - _bss_start L) <? bss_count L); [|reflexivity].
  unfold byte_of. change (wrap 0) with 0. rewrite Z.div_0_l; [reflexivity|].
  apply Z.pow_nonzero; [lia|].
  apply Z.mul_nonneg_nonneg; [lia|]. apply Z.mod_pos_bound. lia.
Qed.

(** C1: on a valid layout of the initialized data, when stage two has
    done its data copy every byte of the RAM region
    [[_data_start, _data_end)] equals the byte at the same offset of the
    flash image at [_data_flash], which is the byte the image had at
    reset. *)
Theorem stage_two_data_copied
    (fuel : nat) (s : machine)
    (Hv : valid_data_layout L)
    (Hf : (Z.to_nat (data_count L / 4) <= fuel)%nat) :
  exists s' t,
    (stage_two_reset_irqs B ;; stage_two_copy_data L fuel) s = Done tt s' t /\
    forall k, 0 <= k < _data_end L - _data_start L ->
      read8 (memory s') (_data_start L + k)
      = read8 (memory s') (_data_flash L + k) /\
      read8 (memory s') (_data_flash L + k)
      = read8 (memory s) (_data_flash L + k).
Proof.
  destruct Hv as (Hreg & Hfl & _ & Hlo & Hhi & Hapart).
  pose proof (count_of_word_region _ _ Hreg) as Hcount.
  pose proof (count_of_word_region_mod4 _ _ Hreg) as H4.
  fold (data_count L) in Hcount, H4.
  destruct Hreg as (Ha & Hb & Hle & _ & _). unfold is_address in *.
  assert (Hn : 0 <= data_count L < modulus) by lia.
  assert (Hdis : ranges_disjoint (_data_start L) (_data_flash L)
                                 (data_count L)).
  { rewrite Hcount. apply ranges_disjoint_linear; lia. }
  destruct (stage_two_reset_irqs_done s) as (s1 & t1 & Hrun1 & Hm1).
  destruct (stage_two_copy_data_done fuel s1 H4 Hf)
    as (s2 & t2 & Hrun2 & Hframe & Hcopy).
  exists s2, (t1 ++ t2). split.
  { rewrite (bind_done _ _ _ _ _ _ Hrun1), Hrun2. reflexivity. }
  intros k Hk. rewrite <- Hcount in Hk.
  assert (Hsrc : read8 (memory s2) (_data_flash L + k)
                 = read8 (memory s) (_data_flash L + k)).
  { rewrite Hframe; [rewrite Hm1; reflexivity|].
    apply source_outside_destination; assumption. }
  split; [|exact Hsrc].
  rewrite Hsrc, (Hcopy Hdis k Hk), Hm1. reflexivity.
Qed.

(** C2: on a word-aligned data region and a valid layout of the bss, when
    stage two has done its bss clear every byte of
    [[_bss_start, _bss_end)] is zero, whatever memory held before. *)
Theorem stage_two_bss_cleared
    (fuel : nat) (s : machine)
    (Hv : valid_bss_layout L)
    (Hd : word_region (_data_start L) (_data_end L))
    (Hfd : (Z.to_nat (data_count L / 4) <= fuel)%nat)
    (Hfb : (Z.to_nat (bss_count L / 4) <= fuel)%nat) :
  exists s' t,
    (stage_two_reset_irqs B ;; stage_two_copy_data L fuel ;;
     stage_two_clear_bss L fuel) s = Done tt s' t /\
    forall k, 0 <= k < _bss_end L - _bss_start L ->
      read8 (memory s') (_bss_start L + k) = 0.
Proof.
  pose proof (count_of_word_region _ _ Hv) as Hcount.
  pose proof (count_of_word_region_mod4 _ _ Hv) as H4b.
  pose proof (count_of_word_region_mod4 _ _ Hd) as H4d.
  fold (bss_count L) in Hcount, H4b. fold (data_count L) in H4d.
  destruct Hv as (Ha & Hb & Hle & _ & _). unfold is_address in *.
  destruct (stage_two_reset_irqs_done s) as (s1 & t1 & Hrun1 & _).
  destruct (stage_two_copy_data_done fuel s1 H4d Hfd)
    as (s2 & t2 & Hrun2 & _).
  destruct (stage_two_clear_bss_done fuel s2 H4b Hfb)
    as (s3 & t3 & Hrun3 & Hz).
  exists s3, (t1 ++ t2 ++ t3). split.
  { rewrite (bind_done _ _ _ _ _ _ Hrun1).
    rewrite (bind_done _ _ _ _ _ _ Hrun2), Hrun3. reflexivity. }
  intros k Hk. rewrite Hz, wrap_offset_small by lia.
  rewrite Hcount. destruct (Z.ltb_spec k (_bss_end L - _bss_start L)); [|lia].
  reflexivity.
Qed.

End BootProperties.

Lemma sample_data_layout : valid_data_layout sample_symbols.
Proof.
  unfold valid_data_layout, word_region, regions_apart, is_address, aligned4,
    modulus. simpl. repeat split; try lia.
Defined.

Lemma sample_bss_layout : valid_bss_layout sample_symbols.
Proof.
  unfold valid_bss_layout, word_region, is_address, aligned4, modulus. simpl.
  repeat split; lia.
Defined.

Lemma stage_two_data_copied_witness :
  valid_data_layout sample_symbols /\
  (Z.to_nat (data_count sample_symbols / 4) <= 2)%nat /\
  exists s' t,
    (stage_two_reset_irqs stm32f0 ;; stage_two_copy_data sample_symbols 2)
      sample_machine = Done tt s' t /\
    forall k, 0 <= k < _data_end sample_symbols - _data_start sample_symbols ->
      read8 (memory s') (_data_start sample_symbols + k)
      = read8 (memory s') (_data_flash sample_symbols + k) /\
      read8 (memory s') (_data_flash sample_symbols + k)
      = read8 (memory sample_machine) (_data_flash sample_symbols + k).
Proof.
  assert (Hf : (Z.to_nat (data_count sample_symbols / 4) <= 2)%nat)
    by (vm_compute; lia).
  split; [exact sample_data_layout|]. split; [exact Hf|].
  exact (stage_two_data_copied sample_symbols stm32f0 2 sample_machine
           sample_data_layout Hf).
Defined.

Lemma sample_data_region :
  word_region (_data_start sample_symbols) (_data_end sample_symbols).
Proof. exact (proj1 sample_data_layout). Defined.

Lemma stage_two_bss_cleared_witness :
  valid_bss_layout sample_symbols /\
  word_region (_data_start sample_symbols) (_data_end sample_symbols) /\
  (Z.to_nat (data_count sample_symbols / 4) <= 2)%nat /\
  (Z.to_nat (bss_count sample_symbols / 4) <= 2)%nat /\
  exists s' t,
    (stage_two_reset_irqs stm32f0 ;; stage_two_copy_data sample_symbols 2 ;;
     stage_two_clear_bss sample_symbols 2) sample_machine = Done tt s' t /\
    forall k, 0 <= k < _bss_end sample_symbols - _bss_start sample_symbols ->
      read8 (memory s') (_bss_start sample_symbols + k) = 0.
Proof.
  assert (Hfd : (Z.to_nat (data_count sample_symbols / 4) <= 2)%nat)
    by (vm_compute; lia).
  assert (Hfb : (Z.to_nat (bss_count sample_symbols / 4) <= 2)%nat)
    by (vm_compute; lia).
  split; [exact sample_bss_layout|]. split; [exact sample_data_region|].
  split; [exact Hfd|]. split; [exact Hfb|].
  exact (stage_two_bss_cleared sample_symbols stm32f0 2 sample_machine
           sample_bss_layout sample_data_region Hfd Hfb).
Defined.

(** ** Order of the interrupt controller writes *)

Lemma clear_group_body (i : nat) (s : machine) :
  (reg_write (NVIC_ICER i) 0xFFFFFFFF ;;
   dsb ;;
   reg_write (NVIC_ICPR i) 0xFFFFFFFF) s
  = Done tt (set_reg (set_reg s (NVIC_ICER i) 0xFFFFFFFF)
                     (NVIC_ICPR i) 0xFFFFFFFF)
         (clear_group_events i).
Proof. reflexivity. Qed.

Lemma for_range_clear_groups (k : nat) :
  forall (i0 : nat) (s : machine),
    exists s',
      for_range i0 k (fun i =>
        reg_write (NVIC_ICER i) 0xFFFFFFFF ;;
        dsb ;;
        reg_write (NVIC_ICPR i) 0xFFFFFFFF) s
      = Done tt s' (flat_map clear_group_events (seq i0 k)).
Proof.
  induction k as [|k IH]; intros i0 s.
  - exists s. reflexivity.
  - simpl for_range.
    rewrite (bind_done _ _ _ _ _ _ (clear_group_body i0 s)).
    match goal with
    | |- context [for_range (S i0) k ?body ?s1] =>
        destruct (IH (S i0) s1) as (s' & Hrun); rewrite Hrun
    end.
    exists s'. reflexivity.
Qed.

Lemma clear_groups_length (l : list nat) :
  length (flat_map clear_group_events l) = (3 * length l)%nat.
Proof. induction l as [|i l IH]; simpl; [reflexivity|]. rewrite IH. lia. Qed.

Lemma clear_groups_writes (i a k : nat) (t : list event) :
  t = flat_map clear_group_events (seq a k) ->
  writes_to (NVIC_ICER i) t \/ writes_to (NVIC_ICPR i) t ->
  (a <= i < a + k)%nat.
Proof.
  intros -> H. apply in_seq.
  destruct H as [[v H]|[v H]]; apply in_flat_map in H as (j & Hj & He);
    simpl in He; destruct He as [He|[He|[He|[]]]];
    try discriminate He; injection He as <- _; exact Hj.
Qed.

Lemma clear_groups_split (i n : nat) :
  (i < n)%nat ->
  flat_map clear_group_events (seq 0 n) =
  flat_map clear_group_events (seq 0 i) ++ clear_group_events i
  ++ flat_map clear_group_events (seq (S i) (n - S i)).
Proof.
  intros Hi. replace n with (i + S (n - S i))%nat at 1 by lia.
  rewrite seq_app, flat_map_app. simpl seq. reflexivity.
Qed.

(** ** Stage one *)

Lemma reg_eqb_refl (r : reg) : reg_eqb r r = true.
Proof. unfold reg_eqb. destruct (reg_eq_dec r r); [reflexivity|contradiction]. Qed.

Lemma reg_eqb_neq (r r' : reg) : r <> r' -> reg_eqb r r' = false.
Proof. unfold reg_eqb. destruct (reg_eq_dec r r'); [contradiction|reflexivity]. Qed.

Section StageOne.

Variable L : linker_symbols.
Variable B : board_support.
Variable armcm_main : M unit.

(** The relocation block, run on any machine: its events, with what each
    register read returned and what was written, and the machine it
    leaves. *)
Lemma relocate_vectortable_run (s : machine) :
  exists s' vctrl vset vclr vmode0 vmode,
    relocate_vectortable L B s =
    Done tt s'
      ([EvRegRead SysTick_CTRL (nth_read s 0 SysTick_CTRL);
        EvRegWrite SysTick_CTRL vctrl;
        EvRegRead IWDG_KR (nth_read s 1 IWDG_KR)]
       ++ (if nth_read s 1 IWDG_KR =? 0 then []
           else [EvRegWrite IWDG_KR 0x0000AAAA])
       ++ [EvCpsidI; EvCpsidF;
           EvRegRead RCC_BDCR (nth_read s 2 RCC_BDCR);
           EvRegWrite RCC_BDCR vset;
           EvRegRead RCC_BDCR (nth_read s 3 RCC_BDCR);
           EvRegWrite RCC_BDCR vclr;
           EvSetSP (_stack_end L);
           EvRegRead SYSCFG_CFGR1 (nth_read s 4 SYSCFG_CFGR1);
           EvRegWrite SYSCFG_CFGR1 vmode0;
           EvRegRead SYSCFG_CFGR1 (nth_read s 5 SYSCFG_CFGR1);
           EvRegWrite SYSCFG_CFGR1 vmode;
           EvCpsieI; EvCpsieF]) /\
    vctrl = wrap (Z.land (nth_read s 0 SysTick_CTRL)
                    (not32 (Z.lor (SysTick_CTRL_TICKINT_Msk B)
                                  (SysTick_CTRL_ENABLE_Msk B)))) /\
    vset = wrap (Z.lor (nth_read s 2 RCC_BDCR) (RCC_BDCR_BDRST B)) /\
    vclr = wrap (Z.land (nth_read s 3 RCC_BDCR) (not32 (RCC_BDCR_BDRST B))) /\
    vmode0 = wrap (Z.land (nth_read s 4 SYSCFG_CFGR1)
                     (not32 (Z.lor (SYSCFG_CFGR1_MEM_MODE_0 B)
                                   (SYSCFG_CFGR1_MEM_MODE_1 B)))) /\
    vmode = wrap (Z.lor (nth_read s 5 SYSCFG_CFGR1)
                    (Z.lor (SYSCFG_CFGR1_MEM_MODE_0 B)
                           (SYSCFG_CFGR1_MEM_MODE_1 B))) /\
    sp s' = _stack_end L /\
    memory s' = copy_bytes (memory s) (_ram_vectortable_start L)
                  (_text_vectortable_start L) (vectortable_count L) /\
    (forall r, regs s' r =
               if reg_eqb r SYSCFG_CFGR1 then vmode
               else if reg_eqb r RCC_BDCR then vclr
               else if reg_eqb r IWDG_KR
                    then (if nth_read s 1 IWDG_KR =? 0 then regs s IWDG_KR
                          else 0x0000AAAA)
               else if reg_eqb r SysTick_CTRL then vctrl
               else regs s r) /\
    primask s' = false /\ faultmask s' = false /\
    iwdg_running s' = iwdg_running s.
Proof.
  destruct s as [m rg p pm fm dv rd wd]. unfold relocate_vectortable.
  run_boot_code.
  destruct (wrap (dv (S rd) IWDG_KR) =? 0); run_boot_code;
    do 6 eexists; (split; [reflexivity|]);
    do 7 (split; [reflexivity|]);
    (split; [|repeat split]);
    intros r; cbv beta.
  - destruct (reg_eq_dec r SYSCFG_CFGR1) as [->|H1]; [reflexivity|].
    rewrite (reg_eqb_neq _ _ H1).
    destruct (reg_eq_dec r RCC_BDCR) as [->|H2]; [reflexivity|].
    rewrite (reg_eqb_neq _ _ H2).
    destruct (reg_eq_dec r IWDG_KR) as [->|H3]; [reflexivity|].
    rewrite (reg_eqb_neq _ _ H3). reflexivity.
  - destruct (reg_eq_dec r SYSCFG_CFGR1) as [->|H1]; [reflexivity|].
    rewrite (reg_eqb_neq _ _ H1).
    destruct (reg_eq_dec r RCC_BDCR) as [->|H2]; [reflexivity|].
    rewrite (reg_eqb_neq _ _ H2).
    destruct (reg_eq_dec r IWDG_KR) as [->|H3]; [reflexivity|].
    rewrite (reg_eqb_neq _ _ H3). reflexivity.
Qed.

(** Stage one on any machine: interrupts are masked, the relocation
    block runs when configured, then the stack pointer is loaded and
    control branches to stage two. *)
Lemma ResetHandler_run (s : machine) :
  exists s' t,
    ResetHandler L B s =
    Jumped lbl_reset_handler_stage_two s'
      ((EvCpsidI :: t)
       ++ [EvSetSP (_stack_end L); EvBx lbl_reset_handler_stage_two]) /\
    sp s' = _stack_end L /\
    if CONFIG_ARMCM_RAM_VECTORTABLE B
    then exists s1,
        relocate_vectortable L B (set_primask s true) = Done tt s1 t /\
        memory s' = memory s1 /\ regs s' = regs s1
    else t = [] /\ memory s' = memory s /\ regs s' = regs s.
Proof.
  unfold ResetHandler. destruct (CONFIG_ARMCM_RAM_VECTORTABLE B).
  - destruct (relocate_vectortable_run (set_primask s true))
      as (s1 & vctrl & vset & vclr & vmode0 & vmode & Hrun & _).
    unfold bind at 1. unfold disable_irq, cpsid_i at 1.
    unfold bind at 1. rewrite Hrun.
    eexists _, _. split; [reflexivity|]. split; [reflexivity|].
    exists s1. repeat split; reflexivity.
  - eexists _, []. split; [reflexivity|]. repeat split; reflexivity.
Qed.

Lemma bind_not_done {A C} (c : M A) (k : A -> M C) :
  (forall a s1, is_done (k a s1) = false) ->
  forall s, is_done (bind c k s) = false.
Proof.
  intros Hk s. unfold bind. destruct (c s); try reflexivity.
  rewrite is_done_prepend. apply Hk.
Qed.

(** Stage two does not come to an end, whatever [armcm_main] does. *)
Lemma reset_handler_stage_two_never_done (fuel : nat) (s : machine) :
  is_done (reset_handler_stage_two L B armcm_main fuel s) = false.
Proof.
  unfold reset_handler_stage_two.
  repeat (apply bind_not_done; intros; cbv beta).
  reflexivity.
Qed.

(** C3: whatever the machine at entry, and so whatever its stack
    pointer, stage one ends by loading the stack pointer with
    [_stack_end] and branching, without link, to stage two; stage two
    starts on a machine whose stack pointer is [_stack_end], and control
    never comes back: neither stage one nor the whole sequence comes to
    an end. *)
Theorem ResetHandler_sets_stack_and_jumps (s : machine) :
  exists s' t,
    ResetHandler L B s =
    Jumped lbl_reset_handler_stage_two s'
      (t ++ [EvSetSP (_stack_end L); EvBx lbl_reset_handler_stage_two]) /\
    sp s' = _stack_end L /\
    is_done (ResetHandler L B s) = false /\
    forall fuel,
      boot L B armcm_main fuel s =
      prepend (t ++ [EvSetSP (_stack_end L);
                     EvBx lbl_reset_handler_stage_two])
              (reset_handler_stage_two L B armcm_main fuel s') /\
      is_done (boot L B armcm_main fuel s) = false.
Proof.
  destruct (ResetHandler_run s) as (s' & t & Hrun & Hsp & _).
  exists s', (EvCpsidI :: t). split; [exact Hrun|]. split; [exact Hsp|].
  split; [rewrite Hrun; reflexivity|].
  intros fuel. unfold boot. rewrite Hrun. split; [reflexivity|].
  rewrite is_done_prepend. apply reset_handler_stage_two_never_done.
Qed.

(** C7: [dynmem_start] returns the address of the end of the bss and
    [dynmem_end] the address where the stack begins; both leave the
    machine as it was and emit nothing; on a valid layout the first is
    not above the second. *)
Theorem dynmem_bounds (s : machine) (Hv : valid_layout L) :
  dynmem_start L s = Done (_bss_end L) s [] /\
  dynmem_end L s = Done (_stack_start L) s [] /\
  forall a b sa sb ta tb,
    dynmem_start L s = Done a sa ta -> dynmem_end L s = Done b sb tb ->
    a <= b /\ sa = s /\ sb = s.
Proof.
  split; [reflexivity|]. split; [reflexivity|].
  intros a b sa sb ta tb Ha Hb. unfold dynmem_start, dynmem_end, ret in *.
  injection Ha as <- <- _. injection Hb as <- <- _.
  destruct Hv as (_ & _ & _ & Hle). auto.
Qed.

End StageOne.

(** ** Vector table relocation *)

Lemma read8_copy_bytes (m : mem) (d s n a : Z) :
  read8 (copy_bytes m d s n) a =
  if wrap (a - d) <? n then read8 m (s + wrap (a - d)) else read8 m a.
Proof.
  unfold read8 at 1. unfold copy_bytes.
  replace (wrap (wrap a - d)) with (wrap (a - d))
    by (unfold wrap, modulus; Z.div_mod_to_equations; lia).
  destruct (wrap (a - d) <? n); [|reflexivity].
  unfold read8. apply Z.mod_mod. lia.
Qed.

(** Or-ing a mask into a register sets every bit of the mask. *)
Lemma land_wrap_lor_mask (v m0 m1 m : Z) :
  is_mask m -> m = m0 \/ m = m1 ->
  Z.land (wrap (Z.lor v (Z.lor m0 m1))) m = m.
Proof.
  intros Hm Hor. unfold is_mask in Hm. unfold wrap.
  change modulus with (2 ^ 32) in *.
  apply Z.bits_inj'. intros j Hj. rewrite Z.land_spec.
  destruct (Z.testbit m j) eqn:Hb; [|apply andb_false_r].
  rewrite andb_true_r.
  destruct (Z.lt_ge_cases j 32) as [Hlo|Hhi].
  - rewrite Z.mod_pow2_bits_low by exact Hlo.
    rewrite !Z.lor_spec. destruct Hor; subst m; rewrite Hb;
      rewrite ?orb_true_r, ?orb_true_l; reflexivity.
  - exfalso. rewrite <- (Z.mod_small m (2 ^ 32)) in Hb by exact Hm.
    rewrite Z.mod_pow2_bits_high in Hb by lia. discriminate Hb.
Qed.

Section StageOneRelocation.

Variable L : linker_symbols.
Variable B : board_support.

(** C5: with the vector table relocated to RAM, on a valid layout of the
    two tables, when stage one branches to stage two every byte of the
    RAM table equals the byte of the flash table at the same offset, for
    the [(&_text_vectortable_end - &_text_vectortable_start) * 4] bytes
    of the flash table and no byte more, and both memory-mode bits of
    SYSCFG->CFGR1 are set. *)
Theorem ResetHandler_relocates_vectortable
    (s : machine)
    (Hcfg : CONFIG_ARMCM_RAM_VECTORTABLE B = true)
    (Hv : valid_vectortable_layout L)
    (Hm0 : is_mask (SYSCFG_CFGR1_MEM_MODE_0 B))
    (Hm1 : is_mask (SYSCFG_CFGR1_MEM_MODE_1 B)) :
  exists s' t,
    ResetHandler L B s = Jumped lbl_reset_handler_stage_two s' t /\
    vectortable_count L
    = _text_vectortable_end L - _text_vectortable_start L /\
    (forall k, 0 <= k < vectortable_count L ->
       read8 (memory s') (_ram_vectortable_start L + k)
       = read8 (memory s') (_text_vectortable_start L + k) /\
       read8 (memory s') (_text_vectortable_start L + k)
       = read8 (memory s) (_text_vectortable_start L + k)) /\
    (forall a, ~ in_range (_ram_vectortable_start L) (vectortable_count L) a ->
       read8 (memory s') a = read8 (memory s) a) /\
    Z.land (regs s' SYSCFG_CFGR1) (SYSCFG_CFGR1_MEM_MODE_0 B)
    = SYSCFG_CFGR1_MEM_MODE_0 B /\
    Z.land (regs s' SYSCFG_CFGR1) (SYSCFG_CFGR1_MEM_MODE_1 B)
    = SYSCFG_CFGR1_MEM_MODE_1 B.
Proof.
  destruct (ResetHandler_run L B s) as (s' & t & Hrun & _ & Hreloc).
  rewrite Hcfg in Hreloc. destruct Hreloc as (s1 & Hrun1 & Hmem & Hregs).
  destruct (relocate_vectortable_run L B (set_primask s true))
    as (s1' & vctrl & vset & vclr & vmode0 & vmode & Hrun1' & _ & _ & _ & _
        & Emode & _ & Hcopy & Hregs1 & _).
  rewrite Hrun1 in Hrun1'. injection Hrun1' as <- _.
  simpl memory in Hcopy.
  assert (Hcfgr : regs s1 SYSCFG_CFGR1 = vmode)
    by (rewrite Hregs1; reflexivity).
  destruct Hv as (Hreg & Hram & _ & Hlo & Hhi & Hapart).
  pose proof (count_of_word_region _ _ Hreg) as Hcount.
  fold (vectortable_count L) in Hcount.
  destruct Hreg as (Ha & Hb & Hle & _ & _). unfold is_address in *.
  rewrite <- Hcount in Hlo, Hhi, Hapart.
  assert (Hframe : forall a,
             ~ in_range (_ram_vectortable_start L) (vectortable_count L) a ->
             read8 (memory s') a = read8 (memory s) a).
  { intros a Ha'. rewrite Hmem, Hcopy, read8_copy_bytes.
    unfold in_range in Ha'.
    destruct (Z.ltb_spec (wrap (a - _ram_vectortable_start L))
                         (vectortable_count L));
      [contradiction|reflexivity]. }
  eexists s', _. split; [exact Hrun|]. split; [exact Hcount|].
  split; [|split; [exact Hframe|]].
  - intros k Hk.
    assert (Hsrc : read8 (memory s') (_text_vectortable_start L + k)
                   = read8 (memory s) (_text_vectortable_start L + k)).
    { apply Hframe. apply source_outside_destination; [lia| |exact Hk].
      apply ranges_disjoint_linear; lia. }
    split; [|exact Hsrc]. rewrite Hsrc.
    rewrite Hmem, Hcopy, read8_copy_bytes.
    rewrite wrap_offset_small by lia.
    destruct (Z.ltb_spec k (vectortable_count L)); [reflexivity|lia].
  - rewrite Hregs, Hcfgr, Emode.
    split; apply land_wrap_lor_mask; auto.
Qed.


End StageOneRelocation.

(** ** The properties on the sample board *)

Lemma sample_vectortable_layout : valid_vectortable_layout sample_symbols.
Proof.
  unfold valid_vectortable_layout, word_region, regions_apart, is_address,
    aligned4, modulus. simpl. repeat split; try lia.
Defined.

Lemma sample_layout : valid_layout sample_symbols.
Proof.
  split; [exact sample_data_layout|]. split; [exact sample_bss_layout|].
  unfold word_region, is_address, aligned4, modulus. simpl.
  repeat split; lia.
Defined.

Lemma ResetHandler_relocates_vectortable_witness :
  CONFIG_ARMCM_RAM_VECTORTABLE stm32f0 = true /\
  valid_vectortable_layout sample_symbols /\
  is_mask (SYSCFG_CFGR1_MEM_MODE_0 stm32f0) /\
  is_mask (SYSCFG_CFGR1_MEM_MODE_1 stm32f0) /\
  exists s' t,
    ResetHandler sample_symbols stm32f0 sample_machine
    = Jumped lbl_reset_handler_stage_two s' t /\
    (forall k, 0 <= k < vectortable_count sample_symbols ->
       read8 (memory s') (_ram_vectortable_start sample_symbols + k)
       = read8 (memory s') (_text_vectortable_start sample_symbols + k)) /\
    Z.land (regs s' SYSCFG_CFGR1) (SYSCFG_CFGR1_MEM_MODE_0 stm32f0)
    = SYSCFG_CFGR1_MEM_MODE_0 stm32f0 /\
    Z.land (regs s' SYSCFG_CFGR1) (SYSCFG_CFGR1_MEM_MODE_1 stm32f0)
    = SYSCFG_CFGR1_MEM_MODE_1 stm32f0.
Proof.
  assert (Hm0 : is_mask (SYSCFG_CFGR1_MEM_MODE_0 stm32f0))
    by (unfold is_mask, modulus; simpl; lia).
  assert (Hm1 : is_mask (SYSCFG_CFGR1_MEM_MODE_1 stm32f0))
    by (unfold is_mask, modulus; simpl; lia).
  split; [reflexivity|]. split; [exact sample_vectortable_layout|].
  split; [exact Hm0|]. split; [exact Hm1|].
  destruct (ResetHandler_relocates_vectortable sample_symbols stm32f0
              sample_machine eq_refl sample_vectortable_layout Hm0 Hm1)
    as (s' & t & Hrun & _ & Hcopy & _ & Hb0 & Hb1).
  exists s', t. split; [exact Hrun|]. split; [|split; assumption].
  intros k Hk. apply Hcopy. exact Hk.
Defined.



Lemma dynmem_bounds_witness :
  valid_layout sample_symbols /\
  dynmem_start sample_symbols sample_machine
  = Done (_bss_end sample_symbols) sample_machine [] /\
  dynmem_end sample_symbols sample_machine
  = Done (_stack_start sample_symbols) sample_machine [].
Proof.
  split; [exact sample_layout|].
  destruct (dynmem_bounds sample_symbols sample_machine sample_layout)
    as (Hs & He & _).
  split; assumption.
Defined.

(** * The stages as sequences of operations *)

(** ** Straight-line register code *)

Lemma run_ops_app (o1 o2 : list op) (s : machine) :
  run_ops (o1 ++ o2) s = run_ops o2 (run_ops o1 s).
Proof. unfold run_ops. apply fold_left_app. Qed.

Lemma straight_reg_write (r : reg) (v : Z) : straight (reg_write r v) [OpWrite r v].
Proof. intros s. reflexivity. Qed.

Lemma straight_dsb : straight dsb [OpDSB].
Proof. intros s. reflexivity. Qed.

Lemma straight_isb : straight isb [OpISB].
Proof. intros s. reflexivity. Qed.

Lemma straight_enable_irq : straight enable_irq [OpCpsieI].
Proof. intros s. reflexivity. Qed.

Lemma straight_bind (c : M unit) (k : unit -> M unit) (o1 o2 : list op) :
  straight c o1 -> straight (k tt) o2 -> straight (bind c k) (o1 ++ o2).
Proof.
  intros H1 H2 s. unfold bind. rewrite H1, H2. simpl.
  rewrite run_ops_app, map_app. reflexivity.
Qed.

Lemma straight_for_range (f : nat -> list op) (body : nat -> M unit) (k : nat) :
  (forall i, straight (body i) (f i)) ->
  forall i0, straight (for_range i0 k body) (flat_map f (seq i0 k)).
Proof.
  intros Hbody. induction k as [|k IH]; intros i0.
  - intros s. reflexivity.
  - simpl for_range. simpl seq. simpl flat_map.
    apply straight_bind; [apply Hbody|apply IH].
Qed.

Lemma stage_two_reset_irqs_straight (B : board_support) :
  straight (stage_two_reset_irqs B) (stage_two_reset_ops B).
Proof.
  unfold stage_two_reset_irqs, stage_two_reset_ops.
  apply straight_bind.
  { apply straight_for_range. intros i.
    apply (straight_bind _ _ [_] [_; _]); [apply straight_reg_write|].
    apply (straight_bind _ _ [_] [_]); [apply straight_dsb|].
    apply straight_reg_write. }
  apply straight_bind.
  { unfold user_prio_reg. destruct (CORTEX_M B =? 33);
      apply straight_for_range; intros i; apply straight_reg_write. }
  apply straight_bind; [apply straight_reg_write|].
  apply straight_bind; [apply straight_dsb|].
  apply straight_bind; [apply straight_reg_write|].
  apply straight_bind.
  { unfold system_prio_reg. destruct ((CORTEX_M B =? 7) || (CORTEX_M B =? 33));
      apply straight_for_range; intros i; apply straight_reg_write. }
  apply straight_bind; [apply straight_dsb|].
  apply straight_bind; [apply straight_isb|].
  apply straight_enable_irq.
Qed.

Lemma run_ops_keeps (ops : list op) :
  forall s, memory (run_ops ops s) = memory s /\ sp (run_ops ops s) = sp s /\
            faultmask (run_ops ops s) = faultmask s.
Proof.
  induction ops as [|o ops IH]; intros s; [repeat split|].
  change (run_ops (o :: ops) s) with (run_ops ops (run_op s o)).
  destruct (IH (run_op s o)) as (Hm & Hs & Hf). rewrite Hm, Hs, Hf.
  destruct o; repeat split.
Qed.

(** A register no operation writes keeps its value. *)
Lemma regs_run_ops_untouched (r : reg) (ops : list op) :
  (forall v, ~ In (OpWrite r v) ops) ->
  forall s, regs (run_ops ops s) r = regs s r.
Proof.
  induction ops as [|o ops IH]; intros Hno s; [reflexivity|].
  change (run_ops (o :: ops) s) with (run_ops ops (run_op s o)).
  rewrite IH by (intros v Hv; apply (Hno v); right; exact Hv).
  destruct o as [r' v'| | |]; try reflexivity.
  simpl. rewrite reg_eqb_neq; [reflexivity|].
  intros ->. apply (Hno v'). left. reflexivity.
Qed.

(** A register that is written, and only ever with [v], holds [v]. *)
Lemma regs_run_ops_written (r : reg) (v : Z) (ops : list op) :
  In (OpWrite r v) ops ->
  (forall v', In (OpWrite r v') ops -> v' = v) ->
  forall s, regs (run_ops ops s) r = wrap v.
Proof.
  induction ops as [|o ops IH] using rev_ind; intros Hin Hall s; [destruct Hin|].
  rewrite run_ops_app. simpl.
  destruct o as [r' v'| | |].
  - simpl. destruct (reg_eq_dec r r') as [<-|Hne].
    + rewrite reg_eqb_refl. f_equal. apply Hall, in_or_app. right. left.
      reflexivity.
    + rewrite reg_eqb_neq by exact Hne. apply IH.
      * apply in_app_or in Hin as [Hin|[Hin|[]]]; [exact Hin|].
        injection Hin as -> _. contradiction.
      * intros v'' Hv. apply Hall, in_or_app. left. exact Hv.
  - apply IH.
    + apply in_app_or in Hin as [Hin|[Hin|[]]]; [exact Hin|discriminate Hin].
    + intros v'' Hv. apply Hall, in_or_app. left. exact Hv.
  - apply IH.
    + apply in_app_or in Hin as [Hin|[Hin|[]]]; [exact Hin|discriminate Hin].
    + intros v'' Hv. apply Hall, in_or_app. left. exact Hv.
  - simpl. apply IH.
    + apply in_app_or in Hin as [Hin|[Hin|[]]]; [exact Hin|discriminate Hin].
    + intros v'' Hv. apply Hall, in_or_app. left. exact Hv.
Qed.

Lemma in_stage_two_reset_ops (B : board_support) (o : op) :
  In o (stage_two_reset_ops B) <->
  (exists i, (i < NVIC_ICER_size B)%nat /\
             (o = OpWrite (NVIC_ICER i) 0xFFFFFFFF \/ o = OpDSB \/
              o = OpWrite (NVIC_ICPR i) 0xFFFFFFFF)) \/
  (exists i, (i < NVIC_IP_size B)%nat /\ o = OpWrite (user_prio_reg B i) 0) \/
  o = OpWrite SysTick_CTRL (SysTick_CTRL_CLKSOURCE_Msk B) \/
  o = OpWrite SCB_ICSR
        (Z.lor (SCB_ICSR_PENDSVCLR_Msk B) (SCB_ICSR_PENDSTCLR_Msk B)) \/
  (exists i, (i < SCB_SHP_size B)%nat /\ o = OpWrite (system_prio_reg B i) 0) \/
  o = OpDSB \/ o = OpISB \/ o = OpCpsieI.
Proof.
  unfold stage_two_reset_ops. rewrite !in_app_iff, !in_flat_map. simpl In.
  split.
  - intros [(i & Hi & H)|[(i & Hi & H)|[H|[H|[H|[(i & Hi & H)|[H|[H|H]]]]]]]];
      apply in_seq in Hi || idtac.
    + left. exists i. split; [lia|]. intuition auto.
    + right. left. exists i. split; [lia|]. intuition auto.
    + intuition auto.
    + intuition auto.
    + intuition auto.
    + do 4 right. left. exists i. split; [lia|]. intuition auto.
    + intuition auto.
    + intuition auto.
    + intuition auto.
  - intros [(i & Hi & H)|[(i & Hi & H)|[H|[H|[(i & Hi & H)|[H|[H|H]]]]]]].
    + left. exists i. split; [apply in_seq; lia|]. intuition auto.
    + right. left. exists i. split; [apply in_seq; lia|]. auto.
    + auto.
    + do 4 right. auto.
    + do 5 right. left. exists i. split; [apply in_seq; lia|]. auto.
    + do 3 right. auto.
    + do 7 right. auto.
    + do 8 right. auto.
Qed.

Ltac reset_ops_cases H :=
  apply in_stage_two_reset_ops in H;
  unfold user_prio_reg, system_prio_reg in *;
  destruct H as [(?i & ?Hi & [H|[H|H]])|[(?i & ?Hi & H)|[H|[H|[(?i & ?Hi & H)
                 |[H|[H|H]]]]]]].

(** The register part of stage two leaves interrupts unmasked and keeps
    memory, the stack pointer and the fault mask. *)
Lemma stage_two_reset_irqs_masks (B : board_support) (s : machine) :
  exists s' t,
    stage_two_reset_irqs B s = Done tt s' t /\
    primask s' = false /\
    memory s' = memory s /\ sp s' = sp s /\ faultmask s' = faultmask s.
Proof.
  exists (run_ops (stage_two_reset_ops B) s),
         (map op_event (stage_two_reset_ops B)).
  split; [apply stage_two_reset_irqs_straight|]. split.
  - unfold stage_two_reset_ops. rewrite !app_assoc, run_ops_app. reflexivity.
  - apply run_ops_keeps.
Qed.

Section StageTwoRegisters.

Variable B : board_support.

(** X1: whatever the machine at entry, when stage two has reset the
    interrupt state every user interrupt priority register and every
    system handler priority register of the core holds zero, SysTick->CTRL
    holds the clock-source bit alone and SCB->ICSR the two clear-pending
    bits, interrupts are unmasked, and the watchdog, clock-control and
    system-configuration registers, memory, the stack pointer and the
    fault mask are as they were. *)
Theorem stage_two_reset_irqs_registers (s : machine) :
  exists s' t,
    stage_two_reset_irqs B s = Done tt s' t /\
    (forall i, (i < NVIC_IP_size B)%nat -> regs s' (user_prio_reg B i) = 0) /\
    (forall i, (i < SCB_SHP_size B)%nat -> regs s' (system_prio_reg B i) = 0) /\
    regs s' SysTick_CTRL = wrap (SysTick_CTRL_CLKSOURCE_Msk B) /\
    regs s' SCB_ICSR
    = wrap (Z.lor (SCB_ICSR_PENDSVCLR_Msk B) (SCB_ICSR_PENDSTCLR_Msk B)) /\
    regs s' IWDG_KR = regs s IWDG_KR /\
    regs s' RCC_BDCR = regs s RCC_BDCR /\
    regs s' SYSCFG_CFGR1 = regs s SYSCFG_CFGR1 /\
    primask s' = false /\
    memory s' = memory s /\ sp s' = sp s /\ faultmask s' = faultmask s.
Proof.
  exists (run_ops (stage_two_reset_ops B) s), (map op_event (stage_two_reset_ops B)).
  split; [apply stage_two_reset_irqs_straight|].
  split; [|split; [|split; [|split; [|split; [|split; [|split; [|split]]]]]]].
  - intros i Hi. transitivity (wrap 0); [|reflexivity].
    apply regs_run_ops_written.
    + apply in_stage_two_reset_ops. right. left. exists i. auto.
    + intros v' H. reset_ops_cases H;
        destruct (CORTEX_M B =? 33), (CORTEX_M B =? 7); simpl in *; congruence.
  - intros i Hi. transitivity (wrap 0); [|reflexivity].
    apply regs_run_ops_written.
    + apply in_stage_two_reset_ops. do 4 right. left. exists i. auto.
    + intros v' H. reset_ops_cases H;
        destruct (CORTEX_M B =? 33), (CORTEX_M B =? 7); simpl in *; congruence.
  - apply regs_run_ops_written.
    + apply in_stage_two_reset_ops. auto.
    + intros v' H. reset_ops_cases H;
        destruct (CORTEX_M B =? 33), (CORTEX_M B =? 7); simpl in *; congruence.
  - apply regs_run_ops_written.
    + apply in_stage_two_reset_ops. auto.
    + intros v' H. reset_ops_cases H;
        destruct (CORTEX_M B =? 33), (CORTEX_M B =? 7); simpl in *; congruence.
  - apply regs_run_ops_untouched. intros v H. reset_ops_cases H;
      destruct (CORTEX_M B =? 33), (CORTEX_M B =? 7); simpl in *; congruence.
  - apply regs_run_ops_untouched. intros v H. reset_ops_cases H;
      destruct (CORTEX_M B =? 33), (CORTEX_M B =? 7); simpl in *; congruence.
  - apply regs_run_ops_untouched. intros v H. reset_ops_cases H;
      destruct (CORTEX_M B =? 33), (CORTEX_M B =? 7); simpl in *; congruence.
  - unfold stage_two_reset_ops. rewrite !app_assoc, run_ops_app. reflexivity.
  - apply run_ops_keeps.
Qed.

End StageTwoRegisters.

Section StageTwoResetOrder.

Variable B : board_support.

(** X2: the register part of stage two disables SysTick with one write of
    the clock-source bit, follows it with a data synchronization barrier
    and only then clears the pending PendSV and SysTick exceptions; it
    ends with a data barrier, an instruction barrier and the interrupt
    enable, in this order; everything else it does is register writes and
    data barriers, none of them to SysTick->CTRL or SCB->ICSR. *)
Theorem stage_two_reset_irqs_order (s : machine) :
  exists pre mid,
    trace_of (stage_two_reset_irqs B s) =
    pre
    ++ [EvRegWrite SysTick_CTRL (wrap (SysTick_CTRL_CLKSOURCE_Msk B)); EvDSB;
        EvRegWrite SCB_ICSR
          (wrap (Z.lor (SCB_ICSR_PENDSVCLR_Msk B) (SCB_ICSR_PENDSTCLR_Msk B)))]
    ++ mid
    ++ [EvDSB; EvISB; EvCpsieI] /\
    Forall (fun e => is_reg_write_or_dsb e = true) pre /\
    Forall (fun e => is_reg_write_or_dsb e = true) mid /\
    ~ writes_to SysTick_CTRL pre /\ ~ writes_to SysTick_CTRL mid /\
    ~ writes_to SCB_ICSR pre /\ ~ writes_to SCB_ICSR mid.
Proof.
  rewrite stage_two_reset_irqs_straight. simpl trace_of.
  unfold stage_two_reset_ops.
  set (nvic := flat_map
                 (fun i => [OpWrite (NVIC_ICER i) 0xFFFFFFFF; OpDSB;
                            OpWrite (NVIC_ICPR i) 0xFFFFFFFF])
                 (seq 0 (NVIC_ICER_size B))).
  set (prio := flat_map (fun i => [OpWrite (user_prio_reg B i) 0])
                        (seq 0 (NVIC_IP_size B))).
  set (shp := flat_map (fun i => [OpWrite (system_prio_reg B i) 0])
                       (seq 0 (SCB_SHP_size B))).
  exists (map op_event (nvic ++ prio)), (map op_event shp).
  assert (Hpre : forall e, In e (map op_event (nvic ++ prio)) ->
            is_reg_write_or_dsb e = true /\
            (forall v, e <> EvRegWrite SysTick_CTRL v) /\
            (forall v, e <> EvRegWrite SCB_ICSR v)).
  { intros e He. apply in_map_iff in He as (o & <- & Ho).
    apply in_app_or in Ho as [Ho|Ho]; apply in_flat_map in Ho as (i & _ & Ho);
      simpl in Ho; unfold user_prio_reg in Ho;
      destruct (CORTEX_M B =? 33);
      repeat (destruct Ho as [<-|Ho]; [repeat split; intros; discriminate|]);
      destruct Ho. }
  assert (Hmid : forall e, In e (map op_event shp) ->
            is_reg_write_or_dsb e = true /\
            (forall v, e <> EvRegWrite SysTick_CTRL v) /\
            (forall v, e <> EvRegWrite SCB_ICSR v)).
  { intros e He. apply in_map_iff in He as (o & <- & Ho).
    apply in_flat_map in Ho as (i & _ & Ho);
      simpl in Ho; unfold system_prio_reg in Ho;
      destruct ((CORTEX_M B =? 7) || (CORTEX_M B =? 33));
      repeat (destruct Ho as [<-|Ho]; [repeat split; intros; discriminate|]);
      destruct Ho. }
  split.
  { rewrite !map_app. simpl. rewrite <- !app_assoc. reflexivity. }
  split; [apply Forall_forall; intros e He; apply Hpre, He|].
  split; [apply Forall_forall; intros e He; apply Hmid, He|].
  repeat split; intros [v Hv].
  - apply Hpre in Hv as (_ & H & _). apply (H v). reflexivity.
  - apply Hmid in Hv as (_ & H & _). apply (H v). reflexivity.
  - apply Hpre in Hv as (_ & _ & H). apply (H v). reflexivity.
  - apply Hmid in Hv as (_ & _ & H). apply (H v). reflexivity.
Qed.

End StageTwoResetOrder.

(** ** Handing over to the application *)

Lemma bind_prepend {A C} (t : list event) (c : M A) (k : A -> M C) (s : machine) :
  bind (fun s0 => prepend t (c s0)) k s = prepend t (bind c k s).
Proof.
  unfold bind. destruct (c s) as [a s1 t1|l s1 t1|s1 t1|s1 t1]; simpl;
    try reflexivity.
  rewrite prepend_app. reflexivity.
Qed.

Lemma bind_out_of_fuel {A C} (c : M A) (k : A -> M C) (s s1 : machine) t1 :
  c s = OutOfFuel s1 t1 -> bind c k s = OutOfFuel s1 t1.
Proof. unfold bind. intros ->. reflexivity. Qed.

Lemma trace_of_bind_loop_forever (c : M unit) (s : machine) :
  trace_of (bind c (fun _ => @loop_forever unit) s) = trace_of (c s).
Proof.
  unfold bind. destruct (c s); simpl; try reflexivity. apply app_nil_r.
Qed.

(** Whatever the length and the iterations granted, either loop returns or
    is still running, and all it has done is word accesses to memory. *)
Lemma boot_memset_loop_any (fuel : nat) :
  forall (p c n : Z) (st : machine),
    exists st' t,
      (boot_memset_loop fuel p c n st = Done tt st' t \/
       boot_memset_loop fuel p c n st = OutOfFuel st' t) /\
      Forall (fun e => is_mem_access e = true) t.
Proof.
  induction fuel as [|fuel IH]; intros p c n st.
  - exists st, []. split; [|constructor].
    simpl. destruct (n =? 0); auto.
  - destruct (Z.eqb_spec n 0) as [->|Hn].
    + exists st, []. rewrite boot_memset_loop_zero. split; [auto|constructor].
    + rewrite boot_memset_loop_step by exact Hn.
      destruct (IH (wrap (p + 4)) c (wrap (n - 4))
                   (set_memory st (store32 (memory st) p (wrap c))))
        as (st' & t & [Hrun|Hrun] & Hall); rewrite Hrun; simpl;
        eexists st', _; (split; [auto|]); constructor; auto.
Qed.

Lemma boot_memcpy_loop_any (fuel : nat) :
  forall (d s n : Z) (st : machine),
    exists st' t,
      (boot_memcpy_loop fuel d s n st = Done tt st' t \/
       boot_memcpy_loop fuel d s n st = OutOfFuel st' t) /\
      Forall (fun e => is_mem_access e = true) t.
Proof.
  induction fuel as [|fuel IH]; intros d s n st.
  - exists st, []. split; [|constructor].
    simpl. destruct (n =? 0); auto.
  - destruct (Z.eqb_spec n 0) as [->|Hn].
    + exists st, []. rewrite boot_memcpy_loop_zero. split; [auto|constructor].
    + rewrite boot_memcpy_loop_step by exact Hn.
      destruct (IH (wrap (d + 4)) (wrap (s + 4)) (wrap (n - 4))
                   (set_memory st (store32 (memory st) d
                                     (wrap (load32 (memory st) s)))))
        as (st' & t & [Hrun|Hrun] & Hall); rewrite Hrun; simpl;
        eexists st', _; (split; [auto|]); repeat constructor; auto.
Qed.

Lemma mem_access_or_barrier (t : list event) :
  Forall (fun e => is_mem_access e = true) t ->
  Forall (fun e => is_mem_access_or_barrier e = true) t.
Proof.
  apply Forall_impl. intros e He. destruct e; try discriminate He; reflexivity.
Qed.

Section StageTwoHandover.

Variable L : linker_symbols.
Variable B : board_support.
Variable armcm_main : M unit.

(** The events of stage two, whatever the layout and the iterations
    granted: the register part, then word accesses to memory and the
    compiler barrier, then, if the loops have ended, the call of
    [armcm_main] and what [armcm_main] does. *)
Lemma reset_handler_stage_two_trace (fuel : nat) (s : machine) :
  exists tail after,
    trace_of (reset_handler_stage_two L B armcm_main fuel s) =
    map op_event (stage_two_reset_ops B) ++ tail ++ after /\
    Forall (fun e => is_mem_access_or_barrier e = true) tail /\
    (after = [] \/
     exists s3, after = EvCall lbl_armcm_main :: trace_of (armcm_main s3)).
Proof.
  unfold reset_handler_stage_two.
  rewrite (bind_done _ _ _ _ _ _ (stage_two_reset_irqs_straight B s)).
  rewrite trace_of_prepend.
  set (s1 := run_ops (stage_two_reset_ops B) s).
  unfold stage_two_copy_data, boot_memcpy.
  destruct (boot_memcpy_loop_any fuel (_data_start L) (_data_flash L)
              (data_count L) s1) as (s2 & t2 & [Hrun2|Hrun2] & Hall2);
    apply mem_access_or_barrier in Hall2.
  2:{ rewrite (bind_out_of_fuel _ _ _ _ _ Hrun2). simpl.
      exists t2, []. rewrite app_nil_r. auto. }
  rewrite (bind_done _ _ _ _ _ _ Hrun2), trace_of_prepend.
  unfold stage_two_clear_bss, boot_memset.
  destruct (boot_memset_loop_any fuel (_bss_start L) 0 (bss_count L) s2)
    as (s3 & t3 & [Hrun3|Hrun3] & Hall3);
    apply mem_access_or_barrier in Hall3.
  2:{ rewrite (bind_out_of_fuel _ _ _ _ _ Hrun3). simpl.
      exists (t2 ++ t3), []. rewrite app_nil_r.
      split; [reflexivity|]. split; [apply Forall_app; auto|auto]. }
  rewrite (bind_done _ _ _ _ _ _ Hrun3), trace_of_prepend.
  unfold bind at 1. unfold barrier at 1. rewrite trace_of_prepend.
  unfold call_armcm_main. rewrite bind_prepend, trace_of_prepend.
  rewrite trace_of_bind_loop_forever.
  exists (t2 ++ t3 ++ [EvBarrier]), (EvCall lbl_armcm_main :: trace_of (armcm_main s3)).
  split; [rewrite <- !app_assoc; reflexivity|].
  split; [|right; exists s3; reflexivity].
  apply Forall_app. split; [exact Hall2|].
  apply Forall_app. split; [exact Hall3|]. repeat constructor.
Qed.

(** C4: over all of stage two, whatever the machine at entry, the layout
    and the number of iterations granted to its loops: for every
    interrupt-controller register group [i], stage two writes all-ones to
    ICER[i], then issues a data synchronization barrier, then writes
    all-ones to ICPR[i], the three next to each other; it writes neither
    register anywhere else, before or after; the only events that follow
    its own are the call of [armcm_main] and what [armcm_main] does. *)
Theorem stage_two_disable_before_unpend
    (fuel : nat) (s : machine) (i : nat)
    (Hi : (i < NVIC_ICER_size B)%nat) :
  exists pre post after,
    trace_of (reset_handler_stage_two L B armcm_main fuel s) =
    pre
    ++ [EvRegWrite (NVIC_ICER i) 0xFFFFFFFF; EvDSB;
        EvRegWrite (NVIC_ICPR i) 0xFFFFFFFF]
    ++ post ++ after /\
    length pre = (3 * i)%nat /\
    ~ writes_to (NVIC_ICER i) pre /\ ~ writes_to (NVIC_ICPR i) pre /\
    ~ writes_to (NVIC_ICER i) post /\ ~ writes_to (NVIC_ICPR i) post /\
    (after = [] \/
     exists s3, after = EvCall lbl_armcm_main :: trace_of (armcm_main s3)).
Proof.
  destruct (reset_handler_stage_two_trace fuel s)
    as (tail & after & Htrace & Htail & Hafter).
  set (regpart :=
         map op_event
           (flat_map (fun i => [OpWrite (user_prio_reg B i) 0])
                     (seq 0 (NVIC_IP_size B))
            ++ [OpWrite SysTick_CTRL (SysTick_CTRL_CLKSOURCE_Msk B)]
            ++ [OpDSB]
            ++ [OpWrite SCB_ICSR
                  (Z.lor (SCB_ICSR_PENDSVCLR_Msk B) (SCB_ICSR_PENDSTCLR_Msk B))]
            ++ flat_map (fun i => [OpWrite (system_prio_reg B i) 0])
                        (seq 0 (SCB_SHP_size B))
            ++ [OpDSB] ++ [OpISB] ++ [OpCpsieI])).
  assert (Hops : map op_event (stage_two_reset_ops B)
                 = flat_map clear_group_events (seq 0 (NVIC_ICER_size B))
                   ++ regpart).
  { unfold stage_two_reset_ops, regpart. rewrite map_app. f_equal.
    generalize (seq 0 (NVIC_ICER_size B)). intros l.
    induction l as [|j l IH]; [reflexivity|]. simpl. rewrite IH. reflexivity. }
  assert (Hreg : forall j, ~ writes_to (NVIC_ICER j) regpart /\
                           ~ writes_to (NVIC_ICPR j) regpart).
  { intros j. unfold regpart.
    split; intros [v Hv]; apply in_map_iff in Hv as (o & Ho & Hin);
      rewrite !in_app_iff, !in_flat_map in Hin; simpl in Hin;
      unfold user_prio_reg, system_prio_reg in Hin;
      destruct (CORTEX_M B =? 33), (CORTEX_M B =? 7); simpl in Hin;
      repeat match goal with
             | H : _ \/ _ |- _ => destruct H
             | H : exists _, _ |- _ => destruct H
             | H : _ /\ _ |- _ => destruct H
             | H : False |- _ => destruct H
             end; subst o; discriminate Ho. }
  assert (Hmem : forall r, ~ writes_to r tail).
  { intros r [v Hv]. rewrite Forall_forall in Htail.
    apply Htail in Hv. discriminate Hv. }
  exists (flat_map clear_group_events (seq 0 i)),
         (flat_map clear_group_events (seq (S i) (NVIC_ICER_size B - S i))
          ++ regpart ++ tail),
         after.
  split.
  { rewrite Htrace, Hops, (clear_groups_split i _ Hi).
    rewrite <- !app_assoc. reflexivity. }
  split; [rewrite clear_groups_length, length_seq; reflexivity|].
  assert (Hno : forall r, (r = NVIC_ICER i \/ r = NVIC_ICPR i) ->
            ~ writes_to r
                (flat_map clear_group_events
                   (seq (S i) (NVIC_ICER_size B - S i)) ++ regpart ++ tail)).
  { intros r Hr [v Hv]. apply in_app_or in Hv as [Hv|Hv].
    - assert (S i <= i < S i + (NVIC_ICER_size B - S i))%nat; [|lia].
      apply (clear_groups_writes i (S i) (NVIC_ICER_size B - S i) _ eq_refl).
      destruct Hr as [-> | ->]; [left|right]; exists v; exact Hv.
    - apply in_app_or in Hv as [Hv|Hv].
      + destruct (Hreg i) as [H1 H2].
        destruct Hr as [-> | ->]; [apply H1|apply H2]; exists v; exact Hv.
      + apply (Hmem r). exists v. exact Hv. }
  split.
  { intros H. pose proof (clear_groups_writes i 0 i _ eq_refl (or_introl H)).
    lia. }
  split.
  { intros H. pose proof (clear_groups_writes i 0 i _ eq_refl (or_intror H)).
    lia. }
  split; [apply Hno; auto|]. split; [apply Hno; auto|exact Hafter].
Qed.

(** Stage two up to the application, on a layout whose two lengths are
    multiples of 4. *)
Lemma reset_handler_stage_two_run (fuel : nat) (s : machine) :
  data_count L mod 4 = 0 -> bss_count L mod 4 = 0 ->
  (Z.to_nat (data_count L / 4) <= fuel)%nat ->
  (Z.to_nat (bss_count L / 4) <= fuel)%nat ->
  exists s1 s2 s3 t1 t2 t3,
    stage_two_reset_irqs B s = Done tt s1 t1 /\
    boot_memcpy fuel (_data_start L) (_data_flash L) (data_count L) s1
    = Done tt s2 t2 /\
    boot_memset fuel (_bss_start L) 0 (bss_count L) s2 = Done tt s3 t3 /\
    reset_handler_stage_two L B armcm_main fuel s =
    prepend ((t1 ++ t2 ++ t3) ++ [EvBarrier; EvCall lbl_armcm_main])
            (bind armcm_main (fun _ => loop_forever) s3).
Proof.
  intros H4d H4b Hfd Hfb.
  destruct (stage_two_reset_irqs_done B s) as (s1 & t1 & Hrun1 & _).
  pose proof (byte_distance_range (_data_end L) (_data_start L)) as Hrd.
  pose proof (byte_distance_range (_bss_end L) (_bss_start L)) as Hrb.
  destruct (boot_memcpy_returns fuel (_data_start L) (_data_flash L)
              (data_count L) s1 Hrd H4d Hfd) as (s2 & t2 & Hrun2 & _).
  destruct (boot_memset_returns fuel (_bss_start L) 0 (bss_count L) s2
              Hrb H4b Hfb) as (s3 & t3 & Hrun3 & _).
  exists s1, s2, s3, t1, t2, t3.
  split; [exact Hrun1|]. split; [exact Hrun2|]. split; [exact Hrun3|].
  unfold reset_handler_stage_two.
  rewrite (bind_done _ _ _ _ _ _ Hrun1).
  unfold stage_two_copy_data. rewrite (bind_done _ _ _ _ _ _ Hrun2).
  unfold stage_two_clear_bss. rewrite (bind_done _ _ _ _ _ _ Hrun3).
  unfold bind at 1. unfold barrier at 1. unfold call_armcm_main.
  rewrite bind_prepend. rewrite !prepend_app.
  f_equal. rewrite <- !app_assoc. reflexivity.
Qed.

(** X3: on every layout whose data and bss lengths are multiples of 4,
    whether or not the regions are otherwise valid, the two loops of
    stage two end: with enough iterations granted stage two reaches the
    call of [armcm_main], right after the compiler barrier, with the stack
    pointer and the fault mask it was entered with and interrupts
    unmasked; and if [armcm_main] returns, stage two halts in its empty
    loop on the machine [armcm_main] left. *)
Theorem stage_two_reaches_main
    (fuel : nat) (s : machine)
    (H4d : data_count L mod 4 = 0) (H4b : bss_count L mod 4 = 0)
    (Hfd : (Z.to_nat (data_count L / 4) <= fuel)%nat)
    (Hfb : (Z.to_nat (bss_count L / 4) <= fuel)%nat) :
  exists s3 t,
    reset_handler_stage_two L B armcm_main fuel s =
    prepend (t ++ [EvBarrier; EvCall lbl_armcm_main])
            (bind armcm_main (fun _ => loop_forever) s3) /\
    sp s3 = sp s /\ primask s3 = false /\ faultmask s3 = faultmask s /\
    forall s4 t4,
      armcm_main s3 = Done tt s4 t4 ->
      reset_handler_stage_two L B armcm_main fuel s =
      Halted s4 ((t ++ [EvBarrier; EvCall lbl_armcm_main]) ++ t4).
Proof.
  destruct (reset_handler_stage_two_run fuel s H4d H4b Hfd Hfb)
    as (s1 & s2 & s3 & t1 & t2 & t3 & Hrun1 & Hrun2 & Hrun3 & Hrun).
  destruct (stage_two_reset_irqs_masks B s)
    as (s1' & t1' & Hrun1' & Hpm & _ & Hsp & Hfm).
  rewrite Hrun1 in Hrun1'. injection Hrun1' as <- <-.
  pose proof (byte_distance_range (_data_end L) (_data_start L)) as Hrd.
  pose proof (byte_distance_range (_bss_end L) (_bss_start L)) as Hrb.
  destruct (boot_memcpy_returns fuel (_data_start L) (_data_flash L)
              (data_count L) s1 Hrd H4d Hfd) as (s2' & t2' & Hrun2' & Hst2 & _).
  rewrite Hrun2 in Hrun2'. injection Hrun2' as <- <-.
  destruct (boot_memset_returns fuel (_bss_start L) 0 (bss_count L) s2
              Hrb H4b Hfb) as (s3' & t3' & Hrun3' & Hst3 & _).
  rewrite Hrun3 in Hrun3'. injection Hrun3' as <- <-.
  assert (E3 : sp s3 = sp s2 /\ primask s3 = primask s2 /\
               faultmask s3 = faultmask s2)
    by (rewrite Hst3; repeat split).
  assert (E2 : sp s2 = sp s1 /\ primask s2 = primask s1 /\
               faultmask s2 = faultmask s1)
    by (rewrite Hst2; repeat split).
  destruct E3 as (E3s & E3p & E3f). destruct E2 as (E2s & E2p & E2f).
  exists s3, (t1 ++ t2 ++ t3). split; [exact Hrun|].
  split; [congruence|]. split; [congruence|]. split; [congruence|].
  intros s4 t4 Hmain. rewrite Hrun. unfold bind.
  rewrite Hmain. simpl. rewrite app_nil_r. reflexivity.
Qed.

End StageTwoHandover.

Lemma stage_two_disable_before_unpend_witness :
  (0 < NVIC_ICER_size stm32f0)%nat /\
  exists pre post after,
    trace_of (reset_handler_stage_two sample_symbols stm32f0 (ret tt) 2
                sample_machine) =
    pre
    ++ [EvRegWrite (NVIC_ICER 0) 0xFFFFFFFF; EvDSB;
        EvRegWrite (NVIC_ICPR 0) 0xFFFFFFFF]
    ++ post ++ after /\
    length pre = (3 * 0)%nat /\
    ~ writes_to (NVIC_ICER 0) pre /\ ~ writes_to (NVIC_ICPR 0) pre /\
    ~ writes_to (NVIC_ICER 0) post /\ ~ writes_to (NVIC_ICPR 0) post /\
    (after = [] \/
     exists s3, after = EvCall lbl_armcm_main :: trace_of (ret tt s3)).
Proof.
  assert (H0 : (0 < NVIC_ICER_size stm32f0)%nat) by (simpl; lia).
  split; [exact H0|].
  exact (stage_two_disable_before_unpend sample_symbols stm32f0 (ret tt)
           2 sample_machine 0 H0).
Defined.

Lemma sample_counts :
  data_count sample_symbols mod 4 = 0 /\ bss_count sample_symbols mod 4 = 0.
Proof. split; reflexivity. Defined.

Lemma stage_two_reaches_main_witness :
  data_count sample_symbols mod 4 = 0 /\
  bss_count sample_symbols mod 4 = 0 /\
  (Z.to_nat (data_count sample_symbols / 4) <= 2)%nat /\
  (Z.to_nat (bss_count sample_symbols / 4) <= 2)%nat /\
  exists s3 t,
    reset_handler_stage_two sample_symbols stm32f0 (ret tt) 2 sample_machine =
    prepend (t ++ [EvBarrier; EvCall lbl_armcm_main])
            (bind (ret tt) (fun _ => loop_forever) s3) /\
    sp s3 = sp sample_machine /\ primask s3 = false.
Proof.
  assert (Hfd : (Z.to_nat (data_count sample_symbols / 4) <= 2)%nat)
    by (vm_compute; lia).
  assert (Hfb : (Z.to_nat (bss_count sample_symbols / 4) <= 2)%nat)
    by (vm_compute; lia).
  split; [exact (proj1 sample_counts)|]. split; [exact (proj2 sample_counts)|].
  split; [exact Hfd|]. split; [exact Hfb|].
  destruct (stage_two_reaches_main sample_symbols stm32f0 (ret tt) 2
              sample_machine (proj1 sample_counts) (proj2 sample_counts)
              Hfd Hfb) as (s3 & t & Hrun & Hsp & Hpm & _).
  exists s3, t. repeat split; assumption.
Defined.

(** An address on either side of a region is not among its bytes. *)
Lemma outside_region (base stop a : Z) :
  is_address base -> is_address stop -> base <= stop -> is_address a ->
  a < base \/ stop <= a ->
  (wrap (a - base) <? stop - base) = false.
Proof.
  unfold is_address, modulus. intros Hb Hs Hle Ha Hout.
  apply Z.ltb_ge. unfold wrap, modulus. Z.div_mod_to_equations. lia.
Qed.

Section BootHandover.

Variable L : linker_symbols.
Variable B : board_support.
Variable armcm_main : M unit.

(** X4: from any machine at reset, on a layout where data, its flash image
    and the bss are valid and the bss is clear of both, the whole sequence
    of stage one and stage two reaches the call of [armcm_main] with the
    stack pointer at [_stack_end], interrupts unmasked, every byte of the
    data region equal to the byte of its flash image and every byte of the
    bss zero. *)
Theorem boot_hands_over_initialized_machine
    (fuel : nat) (s : machine)
    (Hv : valid_ram_layout L)
    (Hfd : (Z.to_nat (data_count L / 4) <= fuel)%nat)
    (Hfb : (Z.to_nat (bss_count L / 4) <= fuel)%nat) :
  exists s3 t,
    boot L B armcm_main fuel s =
    prepend (t ++ [EvBarrier; EvCall lbl_armcm_main])
            (bind armcm_main (fun _ => loop_forever) s3) /\
    sp s3 = _stack_end L /\ primask s3 = false /\
    (forall k, 0 <= k < _data_end L - _data_start L ->
       read8 (memory s3) (_data_start L + k)
       = read8 (memory s3) (_data_flash L + k)) /\
    (forall k, 0 <= k < _bss_end L - _bss_start L ->
       read8 (memory s3) (_bss_start L + k) = 0).
Proof.
  destruct Hv as (Hdata & Hbss & Hbd & Hbf).
  pose proof (count_of_word_region_mod4 _ _ (proj1 Hdata)) as H4d.
  pose proof (count_of_word_region_mod4 _ _ Hbss) as H4b.
  fold (data_count L) in H4d. fold (bss_count L) in H4b.
  pose proof (byte_distance_range (_data_end L) (_data_start L)) as Hrd.
  pose proof (byte_distance_range (_bss_end L) (_bss_start L)) as Hrb.
  destruct (ResetHandler_run L B s) as (s0 & t0 & Hrun0 & Hsp0 & _).
  destruct (reset_handler_stage_two_run L B armcm_main fuel s0 H4d H4b Hfd Hfb)
    as (s1 & s2 & s3 & t1 & t2 & t3 & Hrun1 & Hrun2 & Hrun3 & Hrun).
  destruct (stage_two_reset_irqs_masks B s0)
    as (s1' & t1' & Hrun1' & Hpm & _ & Hsp & _).
  rewrite Hrun1 in Hrun1'. injection Hrun1' as <- <-.
  destruct (boot_memcpy_returns fuel (_data_start L) (_data_flash L)
              (data_count L) s1 Hrd H4d Hfd)
    as (s2' & t2' & Hrun2' & Hst2 & _ & _ & Hframe & Hcopy).
  rewrite Hrun2 in Hrun2'. injection Hrun2' as <- <-.
  destruct (boot_memset_returns fuel (_bss_start L) 0 (bss_count L) s2
              Hrb H4b Hfb) as (s3' & t3' & Hrun3' & Hst3 & _ & _ & Hfill).
  rewrite Hrun3 in Hrun3'. injection Hrun3' as <- <-.
  assert (E3 : sp s3 = sp s2 /\ primask s3 = primask s2)
    by (rewrite Hst3; repeat split).
  assert (E2 : sp s2 = sp s1 /\ primask s2 = primask s1)
    by (rewrite Hst2; repeat split).
  destruct E3 as (E3s & E3p). destruct E2 as (E2s & E2p).
  exists s3, (((EvCpsidI :: t0)
               ++ [EvSetSP (_stack_end L); EvBx lbl_reset_handler_stage_two])
              ++ t1 ++ t2 ++ t3).
  split.
  { unfold boot. rewrite Hrun0, Hrun, prepend_app. f_equal.
    rewrite <- !app_assoc. reflexivity. }
  split; [congruence|]. split; [congruence|].
  pose proof (count_of_word_region _ _ Hbss) as Hbc.
  fold (bss_count L) in Hbc.
  destruct Hdata as (Hreg & Hfl & _ & Hlo & Hhi & Hapart).
  pose proof (count_of_word_region _ _ Hreg) as Hdc.
  fold (data_count L) in Hdc.
  destruct Hreg as (Hda & Hdb & Hdle & _ & _).
  destruct Hbss as (Hba & Hbb & Hble & _ & _).
  unfold apart in Hbd, Hbf. unfold is_address in *.
  assert (Hdis : ranges_disjoint (_data_start L) (_data_flash L)
                                 (data_count L)).
  { rewrite Hdc. apply ranges_disjoint_linear; lia. }
  split.
  - intros k Hk.
    rewrite !Hfill, Hbc.
    rewrite (outside_region (_bss_start L) (_bss_end L) (_data_start L + k))
      by (unfold is_address; lia).
    rewrite (outside_region (_bss_start L) (_bss_end L) (_data_flash L + k))
      by (unfold is_address; lia).
    rewrite (Hcopy Hdis k) by lia.
    symmetry. apply Hframe.
    apply source_outside_destination; [lia|exact Hdis|lia].
  - intros k Hk. rewrite Hfill, Hbc, wrap_offset_small by lia.
    destruct (Z.ltb_spec k (_bss_end L - _bss_start L)); [|lia].
    unfold byte_of. change (wrap 0) with 0. apply Z.mod_0_l. lia.
Qed.

End BootHandover.

Lemma sample_ram_layout : valid_ram_layout sample_symbols.
Proof.
  split; [exact sample_data_layout|]. split; [exact sample_bss_layout|].
  unfold apart. simpl. split; lia.
Defined.

Lemma boot_hands_over_witness :
  valid_ram_layout sample_symbols /\
  (Z.to_nat (data_count sample_symbols / 4) <= 2)%nat /\
  (Z.to_nat (bss_count sample_symbols / 4) <= 2)%nat /\
  exists s3 t,
    boot sample_symbols stm32f0 (ret tt) 2 sample_machine =
    prepend (t ++ [EvBarrier; EvCall lbl_armcm_main])
            (bind (ret tt) (fun _ => loop_forever) s3) /\
    sp s3 = _stack_end sample_symbols /\ primask s3 = false /\
    (forall k, 0 <= k < _bss_end sample_symbols - _bss_start sample_symbols ->
       read8 (memory s3) (_bss_start sample_symbols + k) = 0).
Proof.
  assert (Hfd : (Z.to_nat (data_count sample_symbols / 4) <= 2)%nat)
    by (vm_compute; lia).
  assert (Hfb : (Z.to_nat (bss_count sample_symbols / 4) <= 2)%nat)
    by (vm_compute; lia).
  split; [exact sample_ram_layout|]. split; [exact Hfd|]. split; [exact Hfb|].
  destruct (boot_hands_over_initialized_machine sample_symbols stm32f0
              (ret tt) 2 sample_machine sample_ram_layout Hfd Hfb)
    as (s3 & t & Hrun & Hsp & Hpm & _ & Hbss).
  exists s3, t. repeat split; assumption.
Defined.

(** ** More on the copy and fill primitives *)

(** X5: for a length that is a multiple of 4 and ranges that share no
    byte (they may wrap around the end of the address space),
    [boot_memcpy] returns with each destination byte equal to the source
    byte at the same offset before the call, and the source unchanged. *)
Theorem boot_memcpy_copies
    (fuel : nat) (dest src n : Z) (st : machine)
    (Hn : 0 <= n < modulus) (H4 : n mod 4 = 0)
    (Hf : (Z.to_nat (n / 4) <= fuel)%nat)
    (Hdis : ranges_disjoint dest src n) :
  exists st' t,
    boot_memcpy fuel dest src n st = Done tt st' t /\
    forall i, 0 <= i < n ->
      read8 (memory st') (dest + i) = read8 (memory st) (src + i) /\
      read8 (memory st') (src + i) = read8 (memory st) (src + i).
Proof.
  destruct (boot_memcpy_returns fuel dest src n st Hn H4 Hf)
    as (st' & t & Hrun & _ & _ & _ & Hframe & Hcopy).
  exists st', t. split; [exact Hrun|].
  intros i Hi. split; [apply Hcopy; assumption|].
  apply Hframe. apply source_outside_destination; assumption.
Qed.

Lemma boot_memcpy_copies_witness :
  (0 <= 8 < modulus /\ 8 mod 4 = 0 /\ (Z.to_nat (8 / 4) <= 2)%nat /\
   ranges_disjoint 0x20000000 0x08000000 8) /\
  exists st' t,
    boot_memcpy 2 0x20000000 0x08000000 8 sample_machine = Done tt st' t /\
    forall i, 0 <= i < 8 ->
      read8 (memory st') (0x20000000 + i)
      = read8 (memory sample_machine) (0x08000000 + i).
Proof.
  assert (H8 : 0 <= 8 < modulus) by (unfold modulus; lia).
  assert (Hf : (Z.to_nat (8 / 4) <= 2)%nat) by (simpl; lia).
  assert (Hdis : ranges_disjoint 0x20000000 0x08000000 8)
    by (apply ranges_disjoint_linear; unfold modulus; lia).
  split; [split; [exact H8|split; [reflexivity|split; [exact Hf|exact Hdis]]]|].
  destruct (boot_memcpy_copies 2 0x20000000 0x08000000 8 sample_machine
              H8 eq_refl Hf Hdis) as (st' & t & Hrun & Hcopy).
  exists st', t. split; [exact Hrun|]. intros i Hi. apply Hcopy, Hi.
Defined.

(** The copy loop with the destination not above the source. *)
Lemma boot_memcpy_loop_forward (k : nat) :
  forall (fuel : nat) (d s : Z) (st : machine),
    (k <= fuel)%nat -> 4 * Z.of_nat k < modulus ->
    0 <= d <= s -> s + 4 * Z.of_nat k <= modulus ->
    exists st' t,
      boot_memcpy_loop fuel d s (4 * Z.of_nat k) st = Done tt st' t /\
      forall i, 0 <= i < 4 * Z.of_nat k ->
                read8 (memory st') (d + i) = read8 (memory st) (s + i).
Proof.
  induction k as [|k IH]; intros fuel d s st Hf Hk Hds Hs.
  - exists st, []. rewrite boot_memcpy_loop_zero. split; [reflexivity|].
    intros i Hi. lia.
  - destruct fuel as [|fuel]; [lia|].
    rewrite boot_memcpy_loop_step by lia.
    rewrite wrap_sub4 by exact Hk.
    set (v := wrap (load32 (memory st) s)).
    set (st1 := set_memory st (store32 (memory st) d v)).
    destruct (boot_memcpy_loop_words k fuel (wrap (d + 4)) (wrap (s + 4)) st1)
      as (st' & t & Hrun & _ & _ & _ & Hframe & _); [lia|lia|].
    rewrite Hrun. simpl prepend. eexists st', _. split; [reflexivity|].
    unfold modulus in *. intros i Hi.
    destruct (Z.lt_ge_cases i 4) as [Hlo|Hhi].
    + rewrite Hframe.
      * unfold st1. simpl memory. rewrite read8_store32.
        replace (d + i - d) with i by lia.
        rewrite (wrap_small i) by (unfold modulus; lia).
        destruct (Z.ltb_spec i 4); [|lia].
        unfold v. apply byte_of_load32. lia.
      * rewrite wrap_sub_next. replace (d + i - d) with i by lia.
        rewrite (wrap_small i) by (unfold modulus; lia).
        unfold wrap, modulus. Z.div_mod_to_equations. lia.
    + assert (Hk1 : (1 <= k)%nat) by lia.
      rewrite (wrap_small (d + 4)), (wrap_small (s + 4)) in Hrun
        by (unfold modulus; lia).
      destruct (IH fuel (d + 4) (s + 4) st1) as (st'' & t'' & Hrun' & Hcopy);
        [lia|unfold modulus; lia|lia|unfold modulus; lia|].
      rewrite Hrun in Hrun'. injection Hrun' as <- _.
      replace (d + i) with (d + 4 + (i - 4)) by lia.
      rewrite Hcopy by lia.
      replace (s + 4 + (i - 4)) with (s + i) by lia.
      unfold st1. simpl memory. rewrite read8_store32.
      rewrite (wrap_small (s + i - d)) by (unfold modulus; lia).
      destruct (Z.ltb_spec (s + i - d) 4); [lia|reflexivity].
Qed.

(** X6: [boot_memcpy] copies forward, so it is also right on ranges that
    overlap when the destination is not above the source: each
    destination byte ends up equal to the source byte at the same offset
    before the call. *)
Theorem boot_memcpy_forward_overlap
    (fuel : nat) (dest src n : Z) (st : machine)
    (Hn : 0 <= n < modulus) (H4 : n mod 4 = 0)
    (Hf : (Z.to_nat (n / 4) <= fuel)%nat)
    (Hds : 0 <= dest <= src) (Hs : src + n <= modulus) :
  exists st' t,
    boot_memcpy fuel dest src n st = Done tt st' t /\
    forall i, 0 <= i < n ->
      read8 (memory st') (dest + i) = read8 (memory st) (src + i).
Proof.
  pose proof (words_of_length n Hn H4) as E.
  destruct (boot_memcpy_loop_forward (Z.to_nat (n / 4)) fuel dest src st Hf)
    as (st' & t & Hrun & Hcopy); [lia|exact Hds|lia|].
  rewrite <- E in *. exists st', t. split; [exact Hrun|exact Hcopy].
Qed.

Lemma boot_memcpy_forward_overlap_witness :
  (0 <= 8 < modulus /\ 8 mod 4 = 0 /\ (Z.to_nat (8 / 4) <= 2)%nat /\
   0 <= 0 <= 4 /\ 4 + 8 <= modulus) /\
  exists st' t,
    boot_memcpy 2 0 4 8 sample_machine = Done tt st' t /\
    forall i, 0 <= i < 8 ->
      read8 (memory st') (0 + i) = read8 (memory sample_machine) (4 + i).
Proof.
  assert (H8 : 0 <= 8 < modulus) by (unfold modulus; lia).
  assert (Hf : (Z.to_nat (8 / 4) <= 2)%nat) by (simpl; lia).
  assert (Hds : 0 <= 0 <= 4) by lia.
  assert (Hs : 4 + 8 <= modulus) by (unfold modulus; lia).
  split; [split; [exact H8|split; [reflexivity|split; [exact Hf|
          split; [exact Hds|exact Hs]]]]|].
  exact (boot_memcpy_forward_overlap 2 0 4 8 sample_machine H8 eq_refl Hf
           Hds Hs).
Defined.

Lemma load32_congr (m : mem) (x y : Z) : wrap x = wrap y -> load32 m x = load32 m y.
Proof.
  intros H. unfold load32.
  rewrite (read8_congr m x y H).
  rewrite (read8_congr m (x + 1) (y + 1)), (read8_congr m (x + 2) (y + 2)),
    (read8_congr m (x + 3) (y + 3)); [reflexivity| | |];
    revert H; unfold wrap, modulus; intros H; Z.div_mod_to_equations; lia.
Qed.

Lemma load32_store32_apart (m : mem) (d v a : Z) :
  (forall b, 0 <= b < 4 -> 4 <= wrap (a + b - d)) ->
  load32 (store32 m d v) a = load32 m a.
Proof.
  intros H. unfold load32. rewrite !read8_store32.
  pose proof (H 0) as H0. rewrite Z.add_0_r in H0.
  destruct (Z.ltb_spec (wrap (a - d)) 4); [lia|].
  destruct (Z.ltb_spec (wrap (a + 1 - d)) 4); [specialize (H 1); lia|].
  destruct (Z.ltb_spec (wrap (a + 2 - d)) 4); [specialize (H 2); lia|].
  destruct (Z.ltb_spec (wrap (a + 3 - d)) 4); [specialize (H 3); lia|].
  reflexivity.
Qed.

Lemma boot_memset_loop_trace (k : nat) :
  forall (fuel : nat) (p c : Z) (st : machine),
    (k <= fuel)%nat -> 4 * Z.of_nat k < modulus ->
    trace_of (boot_memset_loop fuel p c (4 * Z.of_nat k) st) =
    map (fun j => EvStore (wrap (p + 4 * Z.of_nat j)) (wrap c)) (seq 0 k).
Proof.
  induction k as [|k IH]; intros fuel p c st Hf Hk.
  - rewrite boot_memset_loop_zero. reflexivity.
  - destruct fuel as [|fuel]; [lia|].
    rewrite boot_memset_loop_step by lia. rewrite wrap_sub4 by exact Hk.
    rewrite trace_of_prepend, IH by lia.
    cbn [seq map app]. change (Z.of_nat 0) with 0.
    rewrite Z.mul_0_r, Z.add_0_r. f_equal.
    rewrite <- seq_shift, map_map. apply map_ext. intros j.
    rewrite wrap_add_wrap_l.
    replace (p + 4 + 4 * Z.of_nat j) with (p + 4 * Z.of_nat (S j)) by lia.
    reflexivity.
Qed.

Lemma boot_memcpy_loop_trace (k : nat) :
  forall (fuel : nat) (d s : Z) (st : machine),
    (k <= fuel)%nat -> 4 * Z.of_nat k < modulus ->
    ranges_disjoint d s (4 * Z.of_nat k) ->
    trace_of (boot_memcpy_loop fuel d s (4 * Z.of_nat k) st) =
    flat_map (fun j => [EvLoad (wrap (s + 4 * Z.of_nat j));
                        EvStore (wrap (d + 4 * Z.of_nat j))
                                (wrap (load32 (memory st) (s + 4 * Z.of_nat j)))])
             (seq 0 k).
Proof.
  induction k as [|k IH]; intros fuel d s st Hf Hk Hdis.
  - rewrite boot_memcpy_loop_zero. reflexivity.
  - destruct fuel as [|fuel]; [lia|].
    rewrite boot_memcpy_loop_step by lia. rewrite wrap_sub4 by exact Hk.
    rewrite trace_of_prepend, IH; [|lia|lia|].
    2:{ intros i' j' Hi' Hj'. rewrite !wrap_add_wrap_l.
        replace (d + 4 + i') with (d + (4 + i')) by lia.
        replace (s + 4 + j') with (s + (4 + j')) by lia.
        apply Hdis; lia. }
    cbn [seq flat_map app]. change (Z.of_nat 0) with 0.
    rewrite !Z.mul_0_r, !Z.add_0_r. do 2 f_equal.
    rewrite <- seq_shift. rewrite !flat_map_concat_map, map_map. f_equal.
    apply map_ext_in. intros j Hj. apply in_seq in Hj.
    rewrite !wrap_add_wrap_l.
    replace (s + 4 + 4 * Z.of_nat j) with (s + 4 * Z.of_nat (S j)) by lia.
    replace (d + 4 + 4 * Z.of_nat j) with (d + 4 * Z.of_nat (S j)) by lia.
    do 4 f_equal. simpl memory.
    rewrite (load32_congr _ (wrap (s + 4) + 4 * Z.of_nat j)
                            (s + 4 * Z.of_nat (S j))).
    2:{ rewrite wrap_add_wrap_l. f_equal. lia. }
    apply load32_store32_apart. intros b Hb.
    pose proof (wrap_range (s + 4 * Z.of_nat (S j) + b - d)) as Hr.
    unfold modulus in Hr, Hk.
    destruct (Z.lt_ge_cases (wrap (s + 4 * Z.of_nat (S j) + b - d)) 4)
      as [Hin|]; [|assumption].
    exfalso.
    apply (Hdis (wrap (s + 4 * Z.of_nat (S j) + b - d))
                (4 * Z.of_nat (S j) + b)); [lia|lia|].
    symmetry. apply wrap_offset; [unfold modulus; lia|].
    f_equal. lia.
Qed.

(** X7: for a length that is a multiple of 4 the primitives work in whole
    words, in ascending order: [boot_memset] makes [n / 4] word stores of
    [c], at [s], [s + 4], ..., and nothing else; [boot_memcpy], on ranges
    that share no byte, makes for each word in turn one load at the source
    and one store of the loaded word at the destination. *)
Theorem boot_access_sequence
    (n : Z) (fuel : nat) (st : machine)
    (Hn : 0 <= n < modulus) (H4 : n mod 4 = 0)
    (Hf : (Z.to_nat (n / 4) <= fuel)%nat) :
  (forall s c,
      trace_of (boot_memset fuel s c n st) =
      map (fun j => EvStore (wrap (s + 4 * Z.of_nat j)) (wrap c))
          (seq 0 (Z.to_nat (n / 4)))) /\
  (forall dest src,
      ranges_disjoint dest src n ->
      trace_of (boot_memcpy fuel dest src n st) =
      flat_map (fun j =>
                  [EvLoad (wrap (src + 4 * Z.of_nat j));
                   EvStore (wrap (dest + 4 * Z.of_nat j))
                     (wrap (load32 (memory st) (src + 4 * Z.of_nat j)))])
               (seq 0 (Z.to_nat (n / 4)))).
Proof.
  pose proof (words_of_length n Hn H4) as E. split.
  - intros s c. unfold boot_memset.
    rewrite <- (boot_memset_loop_trace (Z.to_nat (n / 4)) fuel s c st Hf)
      by lia.
    rewrite <- E. reflexivity.
  - intros dest src Hdis. unfold boot_memcpy.
    rewrite <- (boot_memcpy_loop_trace (Z.to_nat (n / 4)) fuel dest src st Hf);
      [rewrite <- E; reflexivity|lia|rewrite <- E; exact Hdis].
Qed.

Lemma boot_access_sequence_witness :
  (0 <= 8 < modulus /\ 8 mod 4 = 0 /\ (Z.to_nat (8 / 4) <= 2)%nat) /\
  trace_of (boot_memset 2 0x20000000 0 8 sample_machine) =
  [EvStore 0x20000000 0; EvStore 0x20000004 0].
Proof.
  assert (H8 : 0 <= 8 < modulus) by (unfold modulus; lia).
  assert (Hf : (Z.to_nat (8 / 4) <= 2)%nat) by (simpl; lia).
  split; [split; [exact H8|split; [reflexivity|exact Hf]]|].
  destruct (boot_access_sequence 8 2 sample_machine H8 eq_refl Hf) as [Hset _].
  exact (Hset 0x20000000 0).
Defined.

(** ** A region that is not a whole number of words *)

Section PartialWords.

Variable L : linker_symbols.
Variable B : board_support.
Variable armcm_main : M unit.

(** X8: the lengths stage two passes to its loops are the byte distances
    between the symbols as they are, so if the data region or the bss is
    not a whole number of words stage two never gets out of its loops:
    however many iterations are granted it is still running, and it has
    reached neither the compiler barrier nor the call of [armcm_main]. *)
Theorem stage_two_runs_away_on_partial_words
    (fuel : nat) (s : machine)
    (Hodd : data_count L mod 4 <> 0 \/ bss_count L mod 4 <> 0) :
  exists s' t,
    reset_handler_stage_two L B armcm_main fuel s = OutOfFuel s' t /\
    ~ In EvBarrier t /\ ~ In (EvCall lbl_armcm_main) t.
Proof.
  unfold reset_handler_stage_two.
  rewrite (bind_done _ _ _ _ _ _ (stage_two_reset_irqs_straight B s)).
  set (s1 := run_ops (stage_two_reset_ops B) s).
  assert (Hops : forall e, In e (map op_event (stage_two_reset_ops B)) ->
                           e <> EvBarrier /\ e <> EvCall lbl_armcm_main).
  { intros e He. apply in_map_iff in He as (o & <- & _).
    destruct o; split; discriminate. }
  assert (Hmem : forall t e, Forall (fun e => is_mem_access e = true) t ->
                             In e t ->
                             e <> EvBarrier /\ e <> EvCall lbl_armcm_main).
  { intros t e Hall He. rewrite Forall_forall in Hall. apply Hall in He.
    split; intros ->; discriminate He. }
  unfold stage_two_copy_data, boot_memcpy.
  destruct (boot_memcpy_loop_any fuel (_data_start L) (_data_flash L)
              (data_count L) s1) as (s2 & t2 & [Hrun2|Hrun2] & Hall2).
  2:{ rewrite (bind_out_of_fuel _ _ _ _ _ Hrun2). simpl.
      eexists s2, _. split; [reflexivity|].
      split; intros H; apply in_app_or in H as [H|H];
        try (apply Hops in H; tauto); apply (Hmem _ _ Hall2) in H; tauto. }
  rewrite (bind_done _ _ _ _ _ _ Hrun2).
  assert (H4b : bss_count L mod 4 <> 0).
  { destruct Hodd as [H4d|H4b]; [|exact H4b]. exfalso.
    destruct (boot_memcpy_loop_diverges fuel (_data_start L) (_data_flash L)
                (data_count L) s1 H4d) as (s2' & t2' & Hrun2' & _).
    rewrite Hrun2 in Hrun2'. discriminate Hrun2'. }
  unfold stage_two_clear_bss, boot_memset.
  destruct (boot_memset_loop_any fuel (_bss_start L) 0 (bss_count L) s2)
    as (s3 & t3 & [Hrun3|Hrun3] & Hall3).
  { exfalso.
    destruct (boot_memset_loop_diverges fuel (_bss_start L) 0
                (bss_count L) s2 H4b) as (s3' & t3' & Hrun3' & _).
    rewrite Hrun3 in Hrun3'. discriminate Hrun3'. }
  rewrite (bind_out_of_fuel _ _ _ _ _ Hrun3). simpl.
  eexists s3, _. split; [reflexivity|].
  split; intros H; apply in_app_or in H as [H|H];
    try (apply Hops in H; tauto);
    apply in_app_or in H as [H|H];
    [apply (Hmem _ _ Hall2) in H|apply (Hmem _ _ Hall3) in H
     |apply (Hmem _ _ Hall2) in H|apply (Hmem _ _ Hall3) in H]; tauto.
Qed.

End PartialWords.

Lemma stage_two_runs_away_witness :
  (data_count partial_word_symbols mod 4 <> 0 \/
   bss_count partial_word_symbols mod 4 <> 0) /\
  data_count partial_word_symbols = 6 /\
  exists s' t,
    reset_handler_stage_two partial_word_symbols stm32f0 (ret tt) 5
      sample_machine = OutOfFuel s' t /\
    ~ In (EvCall lbl_armcm_main) t.
Proof.
  assert (Hodd : data_count partial_word_symbols mod 4 <> 0 \/
                 bss_count partial_word_symbols mod 4 <> 0)
    by (left; intros H; discriminate H).
  split; [exact Hodd|]. split; [reflexivity|].
  destruct (stage_two_runs_away_on_partial_words partial_word_symbols stm32f0
              (ret tt) 5 sample_machine Hodd) as (s' & t & Hrun & _ & Hcall).
  exists s', t. split; assumption.
Defined.

(** ** A length that is not a multiple of 4 *)

Lemma boot_memset_loop_runaway (fuel : nat) :
  forall (p c n : Z) (st : machine),
    n mod 4 <> 0 -> 4 * Z.of_nat fuel <= modulus ->
    exists st' t,
      boot_memset_loop fuel p c n st = OutOfFuel st' t /\
      forall a, read8 (memory st') a =
                if wrap (a - p) <? 4 * Z.of_nat fuel
                then byte_of (wrap c) (wrap (a - p) mod 4)
                else read8 (memory st) a.
Proof.
  induction fuel as [|fuel IH]; intros p c n st Hn Hk.
  - exists st, []. split.
    + apply boot_memset_loop_stuck. intros ->. apply Hn. reflexivity.
    + intros a. pose proof (wrap_range (a - p)).
      destruct (Z.ltb_spec (wrap (a - p)) (4 * Z.of_nat 0)); [lia|reflexivity].
  - rewrite boot_memset_loop_step by (intros ->; apply Hn; reflexivity).
    destruct (IH (wrap (p + 4)) c (wrap (n - 4))
                 (set_memory st (store32 (memory st) p (wrap c))))
      as (st' & t & Hrun & Hmem).
    { rewrite wrap_mod4. Z.div_mod_to_equations. lia. }
    { lia. }
    rewrite Hrun. simpl prepend. eexists st', _. split; [reflexivity|].
    intros a. rewrite Hmem. simpl memory. rewrite read8_store32.
    rewrite wrap_sub_next.
    pose proof (wrap_range (a - p)) as Hr. unfold modulus in *.
    destruct (Z.ltb_spec (wrap (a - p)) 4) as [H4|H4].
    + assert (E : wrap (wrap (a - p) - 4) = wrap (a - p) - 4 + 4294967296).
      { unfold wrap at 1. unfold modulus. Z.div_mod_to_equations. lia. }
      rewrite E.
      destruct (Z.ltb_spec (wrap (a - p) - 4 + 4294967296)
                           (4 * Z.of_nat fuel)); [lia|].
      destruct (Z.ltb_spec (wrap (a - p)) (4 * Z.of_nat (S fuel))); [|lia].
      rewrite (Z.mod_small (wrap (a - p)) 4) by lia. reflexivity.
    + assert (E : wrap (wrap (a - p) - 4) = wrap (a - p) - 4).
      { apply wrap_small. unfold modulus. lia. }
      rewrite E.
      assert (Em : (wrap (a - p) - 4) mod 4 = wrap (a - p) mod 4).
      { Z.div_mod_to_equations. lia. }
      rewrite Em.
      destruct (Z.ltb_spec (wrap (a - p) - 4) (4 * Z.of_nat fuel));
        destruct (Z.ltb_spec (wrap (a - p)) (4 * Z.of_nat (S fuel)));
        try lia; reflexivity.
Qed.

(** X9: with a length that is not a multiple of 4, [boot_memset] does not
    stop at the end of the range: after [k] iterations, for any [k] up to
    [2^30], it is still running and the [4 * k] bytes from [s] hold the
    fill word, however small [n] is; bytes further on are as before. *)
Theorem boot_memset_overruns
    (k : nat) (s c n : Z) (st : machine)
    (Hn : n mod 4 <> 0) (Hk : 4 * Z.of_nat k <= modulus) :
  exists st' t,
    boot_memset k s c n st = OutOfFuel st' t /\
    (forall i, 0 <= i < 4 * Z.of_nat k ->
       read8 (memory st') (s + i) = byte_of (wrap c) (i mod 4)) /\
    (forall a, ~ in_range s (4 * Z.of_nat k) a ->
       read8 (memory st') a = read8 (memory st) a).
Proof.
  destruct (boot_memset_loop_runaway k s c n st Hn Hk)
    as (st' & t & Hrun & Hmem).
  exists st', t. split; [exact Hrun|]. split.
  - intros i Hi. rewrite Hmem, wrap_offset_small by lia.
    destruct (Z.ltb_spec i (4 * Z.of_nat k)); [reflexivity|lia].
  - intros a Ha. rewrite Hmem. unfold in_range in Ha.
    destruct (Z.ltb_spec (wrap (a - s)) (4 * Z.of_nat k));
      [contradiction|reflexivity].
Qed.

Lemma boot_memset_overruns_witness :
  (2 mod 4 <> 0 /\ 4 * Z.of_nat 3 <= modulus) /\
  exists st' t,
    boot_memset 3 0x20000000 0 2 sample_machine = OutOfFuel st' t /\
    read8 (memory st') (0x20000000 + 11) = 0.
Proof.
  assert (Hn : 2 mod 4 <> 0) by (intros H; discriminate H).
  assert (Hk : 4 * Z.of_nat 3 <= modulus) by (unfold modulus; simpl; lia).
  split; [split; [exact Hn|exact Hk]|].
  destruct (boot_memset_overruns 3 0x20000000 0 2 sample_machine Hn Hk)
    as (st' & t & Hrun & Hfill & _).
  exists st', t. split; [exact Hrun|].
  rewrite Hfill by (simpl; lia). reflexivity.
Defined.

(** ** More on stage one *)

Lemma testbit_wrap (x j : Z) : 0 <= j < 32 -> Z.testbit (wrap x) j = Z.testbit x j.
Proof.
  intros Hj. unfold wrap. change modulus with (2 ^ 32).
  apply Z.mod_pow2_bits_low. lia.
Qed.

Lemma testbit_not32 (x j : Z) :
  0 <= j < 32 -> Z.testbit (not32 x) j = negb (Z.testbit x j).
Proof.
  intros Hj. unfold not32. rewrite testbit_wrap by exact Hj.
  apply Z.lnot_spec. lia.
Qed.

Section StageOneRegisters.

Variable L : linker_symbols.
Variable B : board_support.

(** Stage one with the relocation block, in full. *)
Lemma ResetHandler_relocating_run (s : machine) :
  CONFIG_ARMCM_RAM_VECTORTABLE B = true ->
  exists s' vctrl vset vclr vmode0 vmode,
    ResetHandler L B s =
    Jumped lbl_reset_handler_stage_two s'
      ((EvCpsidI
        :: [EvRegRead SysTick_CTRL (nth_read s 0 SysTick_CTRL);
            EvRegWrite SysTick_CTRL vctrl;
            EvRegRead IWDG_KR (nth_read s 1 IWDG_KR)]
           ++ (if nth_read s 1 IWDG_KR =? 0 then []
               else [EvRegWrite IWDG_KR 0x0000AAAA])
           ++ [EvCpsidI; EvCpsidF;
               EvRegRead RCC_BDCR (nth_read s 2 RCC_BDCR);
               EvRegWrite RCC_BDCR vset;
               EvRegRead RCC_BDCR (nth_read s 3 RCC_BDCR);
               EvRegWrite RCC_BDCR vclr;
               EvSetSP (_stack_end L);
               EvRegRead SYSCFG_CFGR1 (nth_read s 4 SYSCFG_CFGR1);
               EvRegWrite SYSCFG_CFGR1 vmode0;
               EvRegRead SYSCFG_CFGR1 (nth_read s 5 SYSCFG_CFGR1);
               EvRegWrite SYSCFG_CFGR1 vmode])
       ++ [EvCpsieI; EvCpsieF;
           EvSetSP (_stack_end L); EvBx lbl_reset_handler_stage_two]) /\
    vctrl = wrap (Z.land (nth_read s 0 SysTick_CTRL)
                    (not32 (Z.lor (SysTick_CTRL_TICKINT_Msk B)
                                  (SysTick_CTRL_ENABLE_Msk B)))) /\
    vset = wrap (Z.lor (nth_read s 2 RCC_BDCR) (RCC_BDCR_BDRST B)) /\
    vclr = wrap (Z.land (nth_read s 3 RCC_BDCR) (not32 (RCC_BDCR_BDRST B))) /\
    vmode0 = wrap (Z.land (nth_read s 4 SYSCFG_CFGR1)
                     (not32 (Z.lor (SYSCFG_CFGR1_MEM_MODE_0 B)
                                   (SYSCFG_CFGR1_MEM_MODE_1 B)))) /\
    vmode = wrap (Z.lor (nth_read s 5 SYSCFG_CFGR1)
                    (Z.lor (SYSCFG_CFGR1_MEM_MODE_0 B)
                           (SYSCFG_CFGR1_MEM_MODE_1 B))) /\
    (forall r, regs s' r =
               if reg_eqb r SYSCFG_CFGR1 then vmode
               else if reg_eqb r RCC_BDCR then vclr
               else if reg_eqb r IWDG_KR
                    then (if nth_read s 1 IWDG_KR =? 0 then regs s IWDG_KR
                          else 0x0000AAAA)
               else if reg_eqb r SysTick_CTRL then vctrl
               else regs s r) /\
    primask s' = false /\ faultmask s' = false.
Proof.
  intros Hcfg.
  destruct (relocate_vectortable_run L B (set_primask s true))
    as (s1 & vctrl & vset & vclr & vmode0 & vmode & Hrun & E1 & E2 & E3 & E4
        & E5 & _ & _ & Hregs & Hpm & Hfm & _).
  exists (set_sp s1 (_stack_end L)), vctrl, vset, vclr, vmode0, vmode.
  split.
  { unfold ResetHandler. rewrite Hcfg.
    unfold bind at 1. unfold disable_irq, cpsid_i at 1.
    unfold bind at 1. rewrite Hrun.
    change (nth_read (set_primask s true)) with (nth_read s).
    destruct (nth_read s 1 IWDG_KR =? 0); reflexivity. }
  change (nth_read (set_primask s true)) with (nth_read s) in *.
  do 5 (split; [assumption|]).
  split; [exact Hregs|]. split; [exact Hpm|exact Hfm].
Qed.

End StageOneRegisters.

Section StageOneMore.

Variable L : linker_symbols.
Variable B : board_support.

(** X10: stage one starts by masking interrupts.  Without the relocation
    block it then only loads the stack pointer and branches: memory, every
    register and the fault mask are untouched and stage two is entered
    with interrupts masked.  With the relocation block, interrupts and
    faults are unmasked again as the last thing before the stack pointer
    is loaded, and not earlier, so stage two is entered with both
    unmasked. *)
Theorem ResetHandler_interrupt_mask (s : machine) :
  exists s' t,
    ResetHandler L B s = Jumped lbl_reset_handler_stage_two s' (EvCpsidI :: t) /\
    (CONFIG_ARMCM_RAM_VECTORTABLE B = false ->
     t = [EvSetSP (_stack_end L); EvBx lbl_reset_handler_stage_two] /\
     primask s' = true /\ faultmask s' = faultmask s /\
     memory s' = memory s /\ forall r, regs s' r = regs s r) /\
    (CONFIG_ARMCM_RAM_VECTORTABLE B = true ->
     primask s' = false /\ faultmask s' = false /\
     exists mid,
       t = mid ++ [EvCpsieI; EvCpsieF; EvSetSP (_stack_end L);
                   EvBx lbl_reset_handler_stage_two] /\
       ~ In EvCpsieI mid /\ ~ In EvCpsieF mid).
Proof.
  destruct (CONFIG_ARMCM_RAM_VECTORTABLE B) eqn:Hcfg.
  - destruct (ResetHandler_relocating_run L B s Hcfg)
      as (s' & vctrl & vset & vclr & vmode0 & vmode & Hrun & _ & _ & _ & _ & _
          & _ & Hpm & Hfm).
    set (mid := [EvRegRead SysTick_CTRL (nth_read s 0 SysTick_CTRL);
                 EvRegWrite SysTick_CTRL vctrl;
                 EvRegRead IWDG_KR (nth_read s 1 IWDG_KR)]
                ++ (if nth_read s 1 IWDG_KR =? 0 then []
                    else [EvRegWrite IWDG_KR 0x0000AAAA])
                ++ [EvCpsidI; EvCpsidF;
                    EvRegRead RCC_BDCR (nth_read s 2 RCC_BDCR);
                    EvRegWrite RCC_BDCR vset;
                    EvRegRead RCC_BDCR (nth_read s 3 RCC_BDCR);
                    EvRegWrite RCC_BDCR vclr;
                    EvSetSP (_stack_end L);
                    EvRegRead SYSCFG_CFGR1 (nth_read s 4 SYSCFG_CFGR1);
                    EvRegWrite SYSCFG_CFGR1 vmode0;
                    EvRegRead SYSCFG_CFGR1 (nth_read s 5 SYSCFG_CFGR1);
                    EvRegWrite SYSCFG_CFGR1 vmode]).
    exists s', (mid ++ [EvCpsieI; EvCpsieF; EvSetSP (_stack_end L);
                        EvBx lbl_reset_handler_stage_two]).
    split; [exact Hrun|]. split; [discriminate|].
    intros _. split; [exact Hpm|]. split; [exact Hfm|].
    exists mid. split; [reflexivity|]. unfold mid.
    destruct (nth_read s 1 IWDG_KR =? 0); simpl; split; intros H;
      repeat (destruct H as [H|H]; [discriminate H|]); destruct H.
  - eexists _, _. split.
    + unfold ResetHandler. rewrite Hcfg. reflexivity.
    + split; [|discriminate]. intros _. repeat split.
Qed.

(** X11: what the relocation block leaves written in the registers,
    relative to what the device returned to its reads.  Bit by bit over
    the 32 bits: SysTick->CTRL is written with the value read from it
    less the TICKINT and ENABLE bits; the last write to RCC->BDCR is the
    value last read from it less the BDRST bit; the last write to
    SYSCFG->CFGR1 is the value last read from it with the two memory-mode
    bits added; IWDG->KR is written with the refresh key if its read
    returned non-zero and not written if not; no other register is
    written. *)
Theorem ResetHandler_relocation_registers
    (s : machine) (Hcfg : CONFIG_ARMCM_RAM_VECTORTABLE B = true) :
  exists s' t,
    ResetHandler L B s = Jumped lbl_reset_handler_stage_two s' t /\
    (forall j, 0 <= j < 32 ->
       Z.testbit (regs s' SysTick_CTRL) j =
       Z.testbit (nth_read s 0 SysTick_CTRL) j
       && negb (Z.testbit (SysTick_CTRL_TICKINT_Msk B) j
                || Z.testbit (SysTick_CTRL_ENABLE_Msk B) j)) /\
    (forall j, 0 <= j < 32 ->
       Z.testbit (regs s' RCC_BDCR) j =
       Z.testbit (nth_read s 3 RCC_BDCR) j
       && negb (Z.testbit (RCC_BDCR_BDRST B) j)) /\
    (forall j, 0 <= j < 32 ->
       Z.testbit (regs s' SYSCFG_CFGR1) j =
       Z.testbit (nth_read s 5 SYSCFG_CFGR1) j
       || Z.testbit (SYSCFG_CFGR1_MEM_MODE_0 B) j
       || Z.testbit (SYSCFG_CFGR1_MEM_MODE_1 B) j) /\
    regs s' IWDG_KR
    = (if nth_read s 1 IWDG_KR =? 0 then regs s IWDG_KR else 0x0000AAAA) /\
    (forall r, r <> SysTick_CTRL -> r <> RCC_BDCR -> r <> SYSCFG_CFGR1 ->
               r <> IWDG_KR -> regs s' r = regs s r).
Proof.
  destruct (ResetHandler_relocating_run L B s Hcfg)
    as (s' & vctrl & vset & vclr & vmode0 & vmode & Hrun & Ectrl & Eset & Eclr
        & Emode0 & Emode & Hregs & _).
  eexists s', _. split; [exact Hrun|].
  split; [|split; [|split; [|split]]].
  - intros j Hj. rewrite Hregs. simpl. rewrite Ectrl.
    rewrite testbit_wrap, Z.land_spec, testbit_not32, Z.lor_spec by exact Hj.
    reflexivity.
  - intros j Hj. rewrite Hregs. simpl. rewrite Eclr.
    rewrite testbit_wrap, Z.land_spec, testbit_not32 by exact Hj.
    reflexivity.
  - intros j Hj. rewrite Hregs. simpl. rewrite Emode.
    rewrite testbit_wrap, !Z.lor_spec by exact Hj.
    rewrite orb_assoc. reflexivity.
  - rewrite Hregs. reflexivity.
  - intros r H1 H2 H3 H4. rewrite Hregs.
    rewrite !reg_eqb_neq by assumption. reflexivity.
Qed.

(** X12: the relocation block forces the backup domain reset as a pulse:
    it writes RCC->BDCR twice, after interrupts and faults are masked.
    The first write is the value just read from the register with the
    BDRST bit set; then the register is read again, and the second write
    is whatever that read returned with the BDRST bit clear.  Nothing but
    that read lies between the two writes, and the register is written
    nowhere else. *)
Theorem ResetHandler_backup_domain_pulse
    (s : machine) (Hcfg : CONFIG_ARMCM_RAM_VECTORTABLE B = true) :
  exists pre post vset vclr,
    trace_of (ResetHandler L B s) =
    (pre ++ [EvCpsidI; EvCpsidF; EvRegRead RCC_BDCR (nth_read s 2 RCC_BDCR)])
    ++ [EvRegWrite RCC_BDCR vset;
        EvRegRead RCC_BDCR (nth_read s 3 RCC_BDCR);
        EvRegWrite RCC_BDCR vclr]
    ++ post /\
    (forall j, 0 <= j < 32 ->
       Z.testbit vset j =
       Z.testbit (nth_read s 2 RCC_BDCR) j || Z.testbit (RCC_BDCR_BDRST B) j) /\
    (forall j, 0 <= j < 32 ->
       Z.testbit vclr j =
       Z.testbit (nth_read s 3 RCC_BDCR) j
       && negb (Z.testbit (RCC_BDCR_BDRST B) j)) /\
    ~ writes_to RCC_BDCR pre /\ ~ writes_to RCC_BDCR post.
Proof.
  destruct (ResetHandler_relocating_run L B s Hcfg)
    as (s' & vctrl & vset & vclr & vmode0 & vmode & Hrun & _ & Eset & Eclr & _).
  rewrite Hrun. simpl trace_of.
  exists (EvCpsidI
          :: [EvRegRead SysTick_CTRL (nth_read s 0 SysTick_CTRL);
              EvRegWrite SysTick_CTRL vctrl;
              EvRegRead IWDG_KR (nth_read s 1 IWDG_KR)]
             ++ (if nth_read s 1 IWDG_KR =? 0 then []
                 else [EvRegWrite IWDG_KR 0x0000AAAA])).
  eexists _, vset, vclr. split.
  { simpl. rewrite <- !app_assoc. simpl. reflexivity. }
  split; [|split; [|split]].
  - intros j Hj. rewrite Eset, testbit_wrap, Z.lor_spec by exact Hj.
    reflexivity.
  - intros j Hj. rewrite Eclr.
    rewrite testbit_wrap, Z.land_spec, testbit_not32 by exact Hj.
    reflexivity.
  - intros [v H]. destruct (nth_read s 1 IWDG_KR =? 0); simpl in H;
      repeat (destruct H as [H|H]; [discriminate H|]); destruct H.
  - intros [v H]. simpl in H.
    repeat (destruct H as [H|H]; [discriminate H|]); destruct H.
Qed.

End StageOneMore.

Lemma ResetHandler_relocation_registers_witness :
  CONFIG_ARMCM_RAM_VECTORTABLE stm32f0 = true /\
  exists s' t,
    ResetHandler sample_symbols stm32f0 watchdog_machine
    = Jumped lbl_reset_handler_stage_two s' t /\
    regs s' IWDG_KR = 0x0000AAAA.
Proof.
  split; [reflexivity|].
  destruct (ResetHandler_relocation_registers sample_symbols stm32f0
              watchdog_machine eq_refl)
    as (s' & t & Hrun & _ & _ & _ & Hkr & _).
  exists s', t. split; [exact Hrun|exact Hkr].
Defined.

Lemma ResetHandler_backup_domain_pulse_witness :
  CONFIG_ARMCM_RAM_VECTORTABLE stm32f0 = true /\
  exists pre post vset vclr,
    trace_of (ResetHandler sample_symbols stm32f0 sample_machine) =
    (pre ++ [EvCpsidI; EvCpsidF;
             EvRegRead RCC_BDCR (nth_read sample_machine 2 RCC_BDCR)])
    ++ [EvRegWrite RCC_BDCR vset;
        EvRegRead RCC_BDCR (nth_read sample_machine 3 RCC_BDCR);
        EvRegWrite RCC_BDCR vclr]
    ++ post /\
    ~ writes_to RCC_BDCR pre /\ ~ writes_to RCC_BDCR post.
Proof.
  split; [reflexivity|].
  destruct (ResetHandler_backup_domain_pulse sample_symbols stm32f0
              sample_machine eq_refl)
    as (pre & post & vset & vclr & Ht & _ & _ & Hpre & Hpost).
  exists pre, post, vset, vclr. repeat split; assumption.
Defined.

(** ** The memory the application starts on *)

Section MainEntry.

Variable L : linker_symbols.
Variable B : board_support.
Variable armcm_main : M unit.

(** X13: on a layout whose data and bss lengths are multiples of 4, when
    stage two calls [armcm_main] it has changed no byte of memory outside
    the [data_count] bytes at [_data_start] and the [bss_count] bytes at
    [_bss_start]. *)
Theorem stage_two_main_entry
    (fuel : nat) (s : machine)
    (H4d : data_count L mod 4 = 0) (H4b : bss_count L mod 4 = 0)
    (Hfd : (Z.to_nat (data_count L / 4) <= fuel)%nat)
    (Hfb : (Z.to_nat (bss_count L / 4) <= fuel)%nat) :
  exists s3 t,
    reset_handler_stage_two L B armcm_main fuel s =
    prepend (t ++ [EvBarrier; EvCall lbl_armcm_main])
            (bind armcm_main (fun _ => loop_forever) s3) /\
    (forall a, ~ in_range (_data_start L) (data_count L) a ->
               ~ in_range (_bss_start L) (bss_count L) a ->
               read8 (memory s3) a = read8 (memory s) a).
Proof.
  destruct (reset_handler_stage_two_run L B armcm_main fuel s H4d H4b Hfd Hfb)
    as (s1 & s2 & s3 & t1 & t2 & t3 & Hrun1 & Hrun2 & Hrun3 & Hrun).
  destruct (stage_two_reset_irqs_done B s) as (s1' & t1' & Hrun1' & Hmem).
  rewrite Hrun1 in Hrun1'. injection Hrun1' as <- <-.
  pose proof (byte_distance_range (_data_end L) (_data_start L)) as Hrd.
  pose proof (byte_distance_range (_bss_end L) (_bss_start L)) as Hrb.
  destruct (boot_memcpy_returns fuel (_data_start L) (_data_flash L)
              (data_count L) s1 Hrd H4d Hfd)
    as (s2' & t2' & Hrun2' & _ & _ & _ & Hframe & _).
  rewrite Hrun2 in Hrun2'. injection Hrun2' as <- <-.
  destruct (boot_memset_returns fuel (_bss_start L) 0 (bss_count L) s2
              Hrb H4b Hfb) as (s3' & t3' & Hrun3' & _ & _ & _ & Hfill).
  rewrite Hrun3 in Hrun3'. injection Hrun3' as <- <-.
  exists s3, (t1 ++ t2 ++ t3). split; [exact Hrun|].
  intros a Hd Hb. rewrite Hfill. unfold in_range in Hb.
  destruct (Z.ltb_spec (wrap (a - _bss_start L)) (bss_count L));
    [contradiction|].
  rewrite (Hframe a Hd), Hmem. reflexivity.
Qed.

End MainEntry.

Lemma stage_two_main_entry_witness :
  data_count sample_symbols mod 4 = 0 /\
  bss_count sample_symbols mod 4 = 0 /\
  (Z.to_nat (data_count sample_symbols / 4) <= 2)%nat /\
  (Z.to_nat (bss_count sample_symbols / 4) <= 2)%nat /\
  exists s3 t,
    reset_handler_stage_two sample_symbols stm32f0 (ret tt) 2 sample_machine =
    prepend (t ++ [EvBarrier; EvCall lbl_armcm_main])
            (bind (ret tt) (fun _ => loop_forever) s3) /\
    read8 (memory s3) 0x20000200 = read8 (memory sample_machine) 0x20000200.
Proof.
  assert (Hfd : (Z.to_nat (data_count sample_symbols / 4) <= 2)%nat)
    by (vm_compute; lia).
  assert (Hfb : (Z.to_nat (bss_count sample_symbols / 4) <= 2)%nat)
    by (vm_compute; lia).
  split; [exact (proj1 sample_counts)|]. split; [exact (proj2 sample_counts)|].
  split; [exact Hfd|]. split; [exact Hfb|].
  destruct (stage_two_main_entry sample_symbols stm32f0 (ret tt) 2
              sample_machine (proj1 sample_counts) (proj2 sample_counts)
              Hfd Hfb) as (s3 & t & Hrun & Hframe).
  exists s3, t. split; [exact Hrun|].
  apply Hframe; unfold in_range; vm_compute; intros H; discriminate H.
Defined.
